(** * RacingData_Scraper: a shallow embedding and its properties

    The scraper is one module-level script.  Its pure parts (string handling,
    the race-number sort key, the extraction helpers) are embedded as
    functions; the script body is embedded in a state-and-exception monad
    over the script's global variables, the file system and a trace of the
    calls made to the browser driver.

    Python [str] values are modelled by [string], read as ASCII text: the
    URLs the script handles are the formatted landing address and the [href]
    values serialised by the browser, and on ASCII text [str.isdigit] and
    [str.isspace] are the predicates given below.  [int] is the unbounded
    integer [Z]. *)

From Stdlib Require Import List Arith ZArith Lia Bool Ascii String.
From Stdlib Require Import Sorting.Sorted Sorting.Permutation.
From Stdlib Require Import RelationClasses.
Import ListNotations.

#[local] Set Warnings "-register-all".

Open Scope string_scope.
Open Scope list_scope.

(** ** Python string operations *)

Module PyStr.

(** [s[n:]] *)
Fixpoint drop (n : nat) (s : string) : string :=
  match n, s with
  | O, _ => s
  | S _, EmptyString => EmptyString
  | S n', String _ s' => drop n' s'
  end.

(** [s[:n]] *)
Fixpoint take (n : nat) (s : string) : string :=
  match n, s with
  | O, _ => EmptyString
  | S _, EmptyString => EmptyString
  | S n', String c s' => String c (take n' s')
  end.

(** [s.find(sub)]: the index of the first occurrence, [None] for Python's -1. *)
Fixpoint find (sub s : string) : option nat :=
  if prefix sub s then Some O
  else match s with
       | EmptyString => None
       | String _ s' => option_map S (find sub s')
       end.

(** [sub in s] *)
Definition contains (sub s : string) : bool :=
  match find sub s with Some _ => true | None => false end.

(** [s.split(sep)] for a non-empty separator: cut at the first occurrence and
    go on after it.  The recursion is on a bound for the length of what is
    left to scan.  Python raises [ValueError] for the empty separator; the
    script splits at "RaceNo=" only, and nothing below splits at another
    separator. *)
Fixpoint split_from (fuel : nat) (sep s : string) : list string :=
  match fuel with
  | O => [s]
  | S fuel' =>
      match find sep s with
      | None => [s]
      | Some i => take i s :: split_from fuel' sep (drop (i + length sep) s)
      end
  end.

Definition split (sep s : string) : list string :=
  split_from (S (length s)) sep s.

(** [l[-1]] on the result of a split, which is never empty. *)
Definition last_piece (l : list string) : string := last l EmptyString.

Definition is_digit (c : ascii) : bool :=
  let n := nat_of_ascii c in (48 <=? n)%nat && (n <=? 57)%nat.

Fixpoint all_digits (s : string) : bool :=
  match s with
  | EmptyString => true
  | String c s' => is_digit c && all_digits s'
  end.

(** [s.isdigit()]: at least one character, and all of them digits. *)
Definition isdigit (s : string) : bool :=
  match s with
  | EmptyString => false
  | String _ _ => all_digits s
  end.

Definition digit_value (c : ascii) : Z := Z.of_nat (nat_of_ascii c) - 48.

Fixpoint int_from (acc : Z) (s : string) : Z :=
  match s with
  | EmptyString => acc
  | String c s' => int_from (10 * acc + digit_value c) s'
  end.

(** [int(s)] on a string of decimal digits. *)
Definition int (s : string) : Z := int_from 0 s.

(** [c.isspace()] on ASCII: tab, line feed, vertical tab, form feed, carriage
    return, the four separators 28..31 and the space. *)
Definition is_space (c : ascii) : bool :=
  let n := nat_of_ascii c in
  ((9 <=? n)%nat && (n <=? 13)%nat) || ((28 <=? n)%nat && (n <=? 32)%nat).

Fixpoint lstrip (s : string) : string :=
  match s with
  | EmptyString => EmptyString
  | String c s' => if is_space c then lstrip s' else s
  end.

Fixpoint rstrip (s : string) : string :=
  match s with
  | EmptyString => EmptyString
  | String c s' =>
      match rstrip s' with
      | EmptyString => if is_space c then EmptyString else String c EmptyString
      | r => String c r
      end
  end.

(** [s.strip()] *)
Definition strip (s : string) : string := rstrip (lstrip s).

(** Truth value of a string: non-empty. *)
Definition truthy (s : string) : bool :=
  match s with EmptyString => false | String _ _ => true end.

(** [sep.join(l)] *)
Fixpoint join (sep : string) (l : list string) : string :=
  match l with
  | [] => EmptyString
  | [x] => x
  | x :: rest => x ++ sep ++ join sep rest
  end.

End PyStr.

(** ** The race-number sort key (lines 121-124) *)

Definition RaceNo_eq : string := "RaceNo=".

(** [lambda url: int(url.split("RaceNo=")[-1])
      if "RaceNo=" in url and url.split("RaceNo=")[-1].isdigit() else 0] *)
Definition sort_key (url : string) : Z :=
  if PyStr.contains RaceNo_eq url
     && PyStr.isdigit (PyStr.last_piece (PyStr.split RaceNo_eq url))
  then PyStr.int (PyStr.last_piece (PyStr.split RaceNo_eq url))
  else 0%Z.

(** The condition of the lambda: the URL carries an identifiable race number. *)
Definition has_race_no (url : string) : bool :=
  PyStr.contains RaceNo_eq url
  && PyStr.isdigit (PyStr.last_piece (PyStr.split RaceNo_eq url)).

(** [sorted(l, key=key)]: Python's sort is stable, so its result is the one
    of any stable sort; here, insertion from the right, an element going in
    front of the first one whose key is not smaller. *)
Section Sorted.
Context {A : Type} (key : A -> Z).

Fixpoint insert_by (x : A) (l : list A) : list A :=
  match l with
  | [] => [x]
  | y :: l' => if (key x <=? key y)%Z then x :: y :: l' else y :: insert_by x l'
  end.

Fixpoint sorted (l : list A) : list A :=
  match l with
  | [] => []
  | x :: l' => insert_by x (sorted l')
  end.
End Sorted.

(** ** Exceptions and results *)

(** The exception classes the script can meet.  All are subclasses of
    [Exception]; [WebDriverException] stands for any driver failure that is
    neither a timeout nor a missing element. *)
Inductive exn : Type :=
  | TimeoutException
  | NoSuchElementException
  | IndexError
  | OSError
  | WebDriverException (msg : string).

Inductive outcome (A : Type) : Type :=
  | Ok (a : A)
  | Raise (e : exn).
Arguments Ok {A} a.
Arguments Raise {A} e.

(** ** Web elements

    The rendering engine is an external collaborator: a [WebElement] is what
    it answers, on the page as loaded, to the three things the script asks of
    an element, when it answers: a search that finds nothing answers the
    empty list.  Each of the three is a call to the driver, which can also
    fail although the element was found; the calls that fail are added in
    the section on reading through a driver that can fail, below, and the
    functions of this section are what is read when none does. *)
Inductive By : Type := XPATH | TAG_NAME.

Inductive element : Type :=
  Element (text : string)
          (get_attribute : string -> option string)
          (find_elements : By -> string -> list element).

Definition text (e : element) : string :=
  match e with Element t _ _ => t end.
Definition get_attribute (e : element) (name : string) : option string :=
  match e with Element _ a _ => a name end.
Definition find_elements (e : element) (by_ : By) (value : string) : list element :=
  match e with Element _ _ f => f by_ value end.

(** [find_element] answers the first match and raises when there is none. *)
Definition first_match (l : list element) : outcome element :=
  match l with
  | [] => Raise NoSuchElementException
  | e :: _ => Ok e
  end.

Definition find_element (e : element) (by_ : By) (value : string) : outcome element :=
  first_match (find_elements e by_ value).

(** ** Helper functions (lines 43-59) *)

Definition get_safe_text (element : element) (by_ : By) (value : string)
    (default : string) : outcome string :=
  match find_element element by_ value with
  | Ok found => Ok (PyStr.strip (text found))
  | Raise NoSuchElementException => Ok default
  | Raise e => Raise e
  end.

(** The link is [None] when the anchor has no [href] attribute. *)
Definition extract_horse_jockey_trainer_info (cell_element : element)
    : outcome (string * option string) :=
  match find_element cell_element TAG_NAME "a" with
  | Ok link_element =>
      Ok (PyStr.strip (text link_element), get_attribute link_element "href")
  | Raise NoSuchElementException =>
      Ok (PyStr.strip (text cell_element), Some "N/A")
  | Raise e => Raise e
  end.

(** ** Dates (lines 33-41, 68, 72) *)

Record date : Type := mkdate { year : Z; month : Z; day : Z }.

Module Calendar.
Open Scope Z_scope.

(** Days since 1970-01-01 of a civil date, and back. *)
Definition to_days (d : date) : Z :=
  let y := if month d <=? 2 then year d - 1 else year d in
  let era := y / 400 in
  let yoe := y - era * 400 in
  let mp := (month d + 9) mod 12 in
  let doy := (153 * mp + 2) / 5 + day d - 1 in
  let doe := yoe * 365 + yoe / 4 - yoe / 100 + doy in
  era * 146097 + doe - 719468.

Definition of_days (z : Z) : date :=
  let z := z + 719468 in
  let era := z / 146097 in
  let doe := z - era * 146097 in
  let yoe := (doe - doe / 1460 + doe / 36524 - doe / 146096) / 365 in
  let doy := doe - (365 * yoe + yoe / 4 - yoe / 100) in
  let mp := (5 * doy + 2) / 153 in
  let d := doy - (153 * mp + 2) / 5 + 1 in
  let m := if mp <? 10 then mp + 3 else mp - 9 in
  let y := yoe + era * 400 in
  mkdate (if m <=? 2 then y + 1 else y) m d.

(** [d + timedelta(n)] *)
Definition add_days (d : date) (n : Z) : date := of_days (to_days d + n).

Definition digit (n : Z) : ascii := ascii_of_nat (48 + Z.to_nat (n mod 10)).

(** Zero-padded decimal fields of [strftime]. *)
Definition dec2 (n : Z) : string :=
  String (digit (n / 10)) (String (digit n) EmptyString).
Definition dec4 (n : Z) : string :=
  String (digit (n / 1000)) (String (digit (n / 100)) (dec2 n)).

(** [strftime("%d/%m/%Y")] *)
Definition strftime_dmY (d : date) : string :=
  (dec2 (day d) ++ "/" ++ dec2 (month d) ++ "/" ++ dec4 (year d))%string.

(** [strftime("%Y-%m-%d")] *)
Definition strftime_Ymd (d : date) : string :=
  (dec4 (year d) ++ "-" ++ dec2 (month d) ++ "-" ++ dec2 (day d))%string.
End Calendar.

Definition START_DATE : date := mkdate 2019 1 1.
Definition END_DATE : date := mkdate 2024 12 31.

(** [for n in range(int((end_date - start_date).days) + 1):
      yield start_date + timedelta(n)] *)
Definition daterange (start_date end_date : date) : list date :=
  map (fun n => Calendar.add_days start_date (Z.of_nat n))
      (seq 0 (Z.to_nat (Calendar.to_days end_date - Calendar.to_days start_date + 1))).

(** ** The script's data *)

(** One row of the output table: the dictionary built at lines 164-187. *)
Record horse_data : Type := mk_horse_data {
  MeetDate : string;
  RaceURL : string;
  RaceHeader : string;
  RaceDetails : string;
  RaceSpecificName : string;
  RaceGoing : string;
  RaceCourse : string;
  Placing : string;
  HorseNo : string;
  HorseName : string;
  HorseLink : option string;
  JockeyName : string;
  JockeyLink : option string;
  TrainerName : string;
  TrainerLink : option string;
  ActualWt : string;
  DeclarHorseWt : string;
  Draw : string;
  LBW : string;
  RunningPosition : string;
  FinishTime : string;
  WinOdds : string
}.

(** The five race-level variables assigned at lines 139-146. *)
Record race_vars : Type := mk_race_vars {
  race_header_full : string;
  race_details_text : string;
  race_specific_name : string;
  race_going : string;
  race_course : string
}.

(** The lines the script prints, one constructor per [print], with the
    values it interpolates. *)
Inductive message : Type :=
  | MsgCheckingDate (meet_date : string)
  | MsgFileExists (output_filename : string)
  | MsgLandingTimeout (meet_date : string)
  | MsgLandingError (initial_url : string) (e : exn)
  | MsgNoRaces
  | MsgRaceDayConfirmed
  | MsgFoundRaceUrls (n : nat) (meet_date : string)
  | MsgScrapingRace (race_url : string)
  | MsgRaceTimeout (race_url : string)
  | MsgRaceInfo (header going course : string)
  | MsgNoRaceInfo (race_url : string)
  | MsgScrapedHorses (n : nat)
  | MsgPerformanceError (race_url : string) (e : exn)
  | MsgSaved (meet_date output_filename : string)
  | MsgNoData (meet_date : string)
  | MsgCompleted
  | MsgCreatingCombined
  | MsgSavedCombined.

(** Where a page load is asked for: line 82 or line 131. *)
Inductive call_site : Type := LandingPage | RacePage.

(** What the script does to the outside, in the order it does it. *)
Inductive event : Type :=
  | Get (site : call_site) (url : string)
  | Sleep (seconds : nat)
  | Print (m : message)
  | Quit.

(** The script's state: the files on disk (a name and the rows written to
    it), the module-level variables that outlive a statement, and the trace. *)
Record state : Type := mk_state {
  files : list (string * list horse_data);
  all_meets_data : list horse_data;
  meet_data_for_csv : list horse_data;
  race : race_vars;
  trace : list event
}.

(** ** The outside world *)

(** A page as the driver holds it after a [driver.get]: whether the load
    itself raised, what a [WebDriverWait(driver, t).until(presence ...)]
    ends in, and what a search from the document root answers. *)
Record page : Type := mk_page {
  load : outcome unit;
  wait_until : nat -> By -> string -> outcome unit;
  page_find_elements : By -> string -> outcome (list element)
}.

(** The web answers a request in the light of all requests made so far; a
    Python set is enumerated in an order of its own; a file write may fail. *)
Record world : Type := mk_world {
  web : list string -> page;
  set_iter : list string -> list string;
  set_iter_perm : forall s, Permutation (set_iter s) s;
  disk : string -> outcome unit
}.

(** ** The state-and-exception monad *)

Definition M (A : Type) : Type := state -> outcome A * state.

Definition ret {A} (a : A) : M A := fun st => (Ok a, st).

Definition raise {A} (e : exn) : M A := fun st => (Raise e, st).

Definition bind {A B} (m : M A) (k : A -> M B) : M B :=
  fun st =>
    match m st with
    | (Ok a, st') => k a st'
    | (Raise e, st') => (Raise e, st')
    end.

Declare Scope monad_scope.
Delimit Scope monad_scope with monad.
Notation "x <- m ;; k" := (bind m (fun x => k))
  (at level 61, m at next level, right associativity) : monad_scope.
Notation "' pat <- m ;; k" := (bind m (fun x => match x with pat => k end))
  (at level 61, pat pattern, m at next level, right associativity) : monad_scope.
Notation "m ;; k" := (bind m (fun _ => k))
  (at level 61, right associativity) : monad_scope.
Open Scope monad_scope.

(** [try: m] with the exception, if any, handed to the handlers. *)
Definition try_ {A} (m : M A) : M (outcome A) :=
  fun st => let (r, st') := m st in (Ok r, st').

(** A call of a helper that touches no state. *)
Definition lift {A} (r : outcome A) : M A := fun st => (r, st).

Definition emit (e : event) : M unit :=
  fun st => (Ok tt, mk_state (files st) (all_meets_data st)
                             (meet_data_for_csv st) (race st) (trace st ++ [e])).

Definition print (m : message) : M unit := emit (Print m).
Definition sleep (seconds : nat) : M unit := emit (Sleep seconds).

Definition get_state : M state := fun st => (Ok st, st).

Definition set_meet_data (rows : list horse_data) : M unit :=
  fun st => (Ok tt, mk_state (files st) (all_meets_data st) rows (race st) (trace st)).

Definition set_all_meets_data (rows : list horse_data) : M unit :=
  fun st => (Ok tt, mk_state (files st) rows (meet_data_for_csv st) (race st) (trace st)).

Definition set_race (r : race_vars) : M unit :=
  fun st => (Ok tt, mk_state (files st) (all_meets_data st)
                             (meet_data_for_csv st) r (trace st)).

(** A file of that name is on disk. *)
Definition has_file (name : string) (st : state) : bool :=
  existsb (fun f => String.eqb (fst f) name) (files st).

(** [os.path.exists(name)] *)
Definition path_exists (name : string) : M bool :=
  fun st => (Ok (has_file name st), st).

(** [DataFrame(rows).to_csv(name, ...)]: the file is created or replaced. *)
Definition to_csv (w : world) (name : string) (rows : list horse_data) : M unit :=
  fun st =>
    match disk w name with
    | Ok _ =>
        (Ok tt,
         mk_state ((name, rows)
                     :: filter (fun f => negb (String.eqb (fst f) name)) (files st))
                  (all_meets_data st) (meet_data_for_csv st) (race st) (trace st))
    | Raise e => (Raise e, st)
    end.

(** *** The driver *)

Fixpoint requested (tr : list event) : list string :=
  match tr with
  | [] => []
  | Get _ url :: tr' => url :: requested tr'
  | _ :: tr' => requested tr'
  end.

(** The page the driver holds: the answer to the requests made so far. *)
Definition current (w : world) (st : state) : page := web w (requested (trace st)).

Definition driver_get (w : world) (site : call_site) (url : string) : M unit :=
  emit (Get site url) ;;
  st <- get_state ;;
  lift (load (current w st)).

Definition driver_wait (w : world) (timeout : nat) (by_ : By) (value : string) : M unit :=
  st <- get_state ;;
  lift (wait_until (current w st) timeout by_ value).

Definition driver_find_elements (w : world) (by_ : By) (value : string)
    : M (list element) :=
  st <- get_state ;;
  lift (page_find_elements (current w st) by_ value).

Definition driver_find_element (w : world) (by_ : By) (value : string) : M element :=
  found <- driver_find_elements w by_ value ;;
  lift (first_match found).

(** ** The script (lines 62-213) *)

Definition BASE_URL : string :=
  "https://racing.hkjc.com/racing/information/English/racing/LocalResults.aspx?RaceDate=".

Definition landing_marker : string :=
  "//div[contains(@class, 'top_races')]//table | //div[contains(text(), 'No race meeting.')]".
Definition no_race_notice : string :=
  "//div[contains(text(), 'No race meeting.')]".
Definition race_links : string :=
  "//div[contains(@class, 'top_races')]//table//td/a[contains(@href, 'LocalResults.aspx')]".
Definition performance_table_locator : string :=
  "//div[@class='performance']/table[contains(@class, 'draggable')]".
Definition race_tab : string :=
  "//div[contains(@class, 'race_tab')]/table".

Definition NA : string := "N/A".

(** *** Race-URL discovery (lines 112-124) *)

(** [s.add(x)], a set being kept as the list of its distinct members. *)
Definition set_add (x : string) (s : list string) : list string :=
  if existsb (String.eqb x) s then s else s ++ [x].

(** Lines 114-118: the set starts from the landing page's own URL. *)
Fixpoint add_links (race_links_elements : list element) (race_page_urls : list string)
    : list string :=
  match race_links_elements with
  | [] => race_page_urls
  | elem :: rest =>
      match get_attribute elem "href" with
      | Some href =>
          if PyStr.truthy href
             && PyStr.contains "LocalResults.aspx" href
             && negb (PyStr.contains "ResultsAll.aspx" href)
          then add_links rest (set_add href race_page_urls)
          else add_links rest race_page_urls
      | None => add_links rest race_page_urls
      end
  end.

Definition race_page_urls (initial_url : string) (race_links_elements : list element)
    : list string :=
  add_links race_links_elements [initial_url].

Definition sorted_race_urls (w : world) (initial_url : string)
    (race_links_elements : list element) : list string :=
  sorted sort_key (set_iter w (race_page_urls initial_url race_links_elements)).

(** *** One row of the performance table (lines 157-188) *)

(** [cols[i]] *)
Definition index (cols : list element) (i : nat) : M element :=
  match nth_error cols i with
  | Some c => ret c
  | None => raise IndexError
  end.

(** [cols[i].text.strip()] *)
Definition cell_text (cols : list element) (i : nat) : M string :=
  c <- index cols i ;; ret (PyStr.strip (text c)).

(** [extract_horse_jockey_trainer_info(cols[i])] *)
Definition cell_info (cols : list element) (i : nat) : M (string * option string) :=
  c <- index cols i ;; lift (extract_horse_jockey_trainer_info c).

(** [[rp.text.strip() for rp in divs if rp.text.strip()]] *)
Fixpoint stripped_texts (divs : list element) : list string :=
  match divs with
  | [] => []
  | rp :: rest =>
      if PyStr.truthy (PyStr.strip (text rp))
      then PyStr.strip (text rp) :: stripped_texts rest
      else stripped_texts rest
  end.

(** Line 184. *)
Definition running_position (cols : list element) : M string :=
  c <- index cols 9 ;;
  ret (PyStr.join " " (stripped_texts (find_elements c XPATH ".//div/div"))).

Definition row_body (meet_date race_url : string) (row : element) : M unit :=
  let cols := find_elements row TAG_NAME "td" in
  if (List.length cols <? 12)%nat then ret tt
  else
    placing <- cell_text cols 0 ;;
    horse <- cell_info cols 2 ;;
    st <- get_state ;;
    horse_no <- cell_text cols 1 ;;
    jockey_name <- cell_info cols 3 ;;
    jockey_link <- cell_info cols 3 ;;
    trainer_name <- cell_info cols 4 ;;
    trainer_link <- cell_info cols 4 ;;
    actual_wt <- cell_text cols 5 ;;
    declar_horse_wt <- cell_text cols 6 ;;
    draw <- cell_text cols 7 ;;
    lbw <- cell_text cols 8 ;;
    running <- running_position cols ;;
    finish_time <- cell_text cols 10 ;;
    win_odds <- cell_text cols 11 ;;
    let horse_data :=
      {| MeetDate := meet_date;
         RaceURL := race_url;
         RaceHeader := race_header_full (race st);
         RaceDetails := race_details_text (race st);
         RaceSpecificName := race_specific_name (race st);
         RaceGoing := race_going (race st);
         RaceCourse := race_course (race st);
         Placing := placing;
         HorseNo := horse_no;
         HorseName := fst horse;
         HorseLink := snd horse;
         JockeyName := fst jockey_name;
         JockeyLink := snd jockey_link;
         TrainerName := fst trainer_name;
         TrainerLink := snd trainer_link;
         ActualWt := actual_wt;
         DeclarHorseWt := declar_horse_wt;
         Draw := draw;
         LBW := lbw;
         RunningPosition := running;
         FinishTime := finish_time;
         WinOdds := win_odds |} in
    st' <- get_state ;;
    set_meet_data (meet_data_for_csv st' ++ [horse_data]).

Fixpoint rows_loop (meet_date race_url : string) (body_rows : list element) : M unit :=
  match body_rows with
  | [] => ret tt
  | row :: rest => row_body meet_date race_url row ;; rows_loop meet_date race_url rest
  end.

(** *** One race page (lines 129-194) *)

Definition set_race_header_full (v : string) : M unit :=
  st <- get_state ;;
  set_race (mk_race_vars v (race_details_text (race st)) (race_specific_name (race st))
                         (race_going (race st)) (race_course (race st))).
Definition set_race_details_text (v : string) : M unit :=
  st <- get_state ;;
  set_race (mk_race_vars (race_header_full (race st)) v (race_specific_name (race st))
                         (race_going (race st)) (race_course (race st))).
Definition set_race_specific_name (v : string) : M unit :=
  st <- get_state ;;
  set_race (mk_race_vars (race_header_full (race st)) (race_details_text (race st)) v
                         (race_going (race st)) (race_course (race st))).
Definition set_race_going (v : string) : M unit :=
  st <- get_state ;;
  set_race (mk_race_vars (race_header_full (race st)) (race_details_text (race st))
                         (race_specific_name (race st)) v (race_course (race st))).
Definition set_race_course (v : string) : M unit :=
  st <- get_state ;;
  set_race (mk_race_vars (race_header_full (race st)) (race_details_text (race st))
                         (race_specific_name (race st)) (race_going (race st)) v).

(** Lines 139-149. *)
Definition race_info (w : world) (race_url : string) : M unit :=
  set_race (mk_race_vars NA NA NA NA NA) ;;
  r <- try_ (race_info_element <- driver_find_element w XPATH race_tab ;;
             v <- lift (get_safe_text race_info_element XPATH ".//thead/tr/td[1]" NA) ;;
             set_race_header_full v ;;
             v <- lift (get_safe_text race_info_element XPATH ".//tbody/tr[2]/td[1]" NA) ;;
             set_race_details_text v ;;
             v <- lift (get_safe_text race_info_element XPATH ".//tbody/tr[3]/td[1]" NA) ;;
             set_race_specific_name v ;;
             v <- lift (get_safe_text race_info_element XPATH ".//tbody/tr[2]/td[3]" NA) ;;
             set_race_going v ;;
             v <- lift (get_safe_text race_info_element XPATH ".//tbody/tr[3]/td[3]" NA) ;;
             set_race_course v ;;
             st <- get_state ;;
             print (MsgRaceInfo (race_header_full (race st)) (race_going (race st))
                                (race_course (race st)))) ;;
  match r with
  | Ok _ => ret tt
  | Raise NoSuchElementException => print (MsgNoRaceInfo race_url)
  | Raise e => raise e
  end.

(** Lines 152-192. *)
Definition performance (w : world) (meet_date race_url : string) : M unit :=
  r <- try_ (performance_table <- driver_find_element w XPATH performance_table_locator ;;
             let body_rows := find_elements performance_table XPATH "./tbody/tr" in
             rows_loop meet_date race_url body_rows ;;
             print (MsgScrapedHorses (List.length body_rows))) ;;
  match r with
  | Ok _ => ret tt
  | Raise e => print (MsgPerformanceError race_url e)
  end.

Definition race_body (w : world) (meet_date race_url : string) : M unit :=
  print (MsgScrapingRace race_url) ;;
  r <- try_ (driver_get w RacePage race_url ;;
             driver_wait w 20 XPATH performance_table_locator) ;;
  match r with
  | Raise TimeoutException => print (MsgRaceTimeout race_url)
  | Raise e => raise e
  | Ok _ =>
      race_info w race_url ;;
      performance w meet_date race_url ;;
      sleep 1
  end.

Fixpoint race_loop (w : world) (meet_date : string) (urls : list string) : M unit :=
  match urls with
  | [] => ret tt
  | race_url :: rest => race_body w meet_date race_url ;; race_loop w meet_date rest
  end.

(** *** One date (lines 67-202) *)

(** Lines 109-202: the date is a race day. *)
Definition scrape_meet (w : world) (meet_date output_filename initial_url : string)
    : M unit :=
  set_meet_data [] ;;
  race_links_elements <- driver_find_elements w XPATH race_links ;;
  let urls := sorted_race_urls w initial_url race_links_elements in
  print (MsgFoundRaceUrls (List.length urls) meet_date) ;;
  race_loop w meet_date urls ;;
  st <- get_state ;;
  match meet_data_for_csv st with
  | _ :: _ =>
      to_csv w output_filename (meet_data_for_csv st) ;;
      print (MsgSaved meet_date output_filename) ;;
      set_all_meets_data (all_meets_data st ++ meet_data_for_csv st)
  | [] => print (MsgNoData meet_date)
  end.

Definition output_filename_of (single_date : date) : string :=
  "races_" ++ Calendar.strftime_Ymd single_date ++ ".csv".

Definition initial_url_of (single_date : date) : string :=
  BASE_URL ++ Calendar.strftime_dmY single_date.

Definition process_date (w : world) (single_date : date) : M unit :=
  let meet_date := Calendar.strftime_dmY single_date in
  print (MsgCheckingDate meet_date) ;;
  let output_filename := output_filename_of single_date in
  already <- path_exists output_filename ;;
  if already : bool then print (MsgFileExists output_filename)
  else
    let initial_url := initial_url_of single_date in
    r <- try_ (driver_get w LandingPage initial_url ;;
               driver_wait w 10 XPATH landing_marker) ;;
    match r with
    | Raise TimeoutException => print (MsgLandingTimeout meet_date)
    | Raise e => print (MsgLandingError initial_url e)
    | Ok _ =>
        r <- try_ (driver_find_element w XPATH no_race_notice) ;;
        match r with
        | Ok _ => print MsgNoRaces ;; sleep 1
        | Raise NoSuchElementException =>
            print MsgRaceDayConfirmed ;;
            scrape_meet w meet_date output_filename initial_url
        | Raise e => raise e
        end
    end.

Fixpoint dates_loop (w : world) (dates : list date) : M unit :=
  match dates with
  | [] => ret tt
  | single_date :: rest => process_date w single_date ;; dates_loop w rest
  end.

Definition combined_filename : string := "all_races_2019_to_2024.csv".

(** The whole script, from line 63 on. *)
Definition script (w : world) (start_date end_date : date) : M unit :=
  set_all_meets_data [] ;;
  dates_loop w (daterange start_date end_date) ;;
  emit Quit ;;
  print MsgCompleted ;;
  st <- get_state ;;
  match all_meets_data st with
  | _ :: _ =>
      print MsgCreatingCombined ;;
      to_csv w combined_filename (all_meets_data st) ;;
      print MsgSavedCombined
  | [] => ret tt
  end.

Definition main (w : world) : M unit := script w START_DATE END_DATE.

(** The state the script starts in, over the files already on disk. *)
Definition initial_state (fs : list (string * list horse_data)) : state :=
  mk_state fs [] [] (mk_race_vars NA NA NA NA NA) [].

(** ** Reading elements through a driver that can fail

    Every read of an element is a call to the driver, and the call can raise
    (a stale element, a lost session) although the element was found.  Which
    calls fail is for the outside to say; with no failing call, reading is
    what the sections above take it to be. *)
Record faults : Type := mk_faults {
  text_fault : element -> option exn;
  attribute_fault : element -> string -> option exn;
  find_fault : element -> By -> string -> option exn
}.

Definition no_faults : faults :=
  mk_faults (fun _ => None) (fun _ _ => None) (fun _ _ _ => None).

(** [e.text] *)
Definition text_of (f : faults) (e : element) : outcome string :=
  match text_fault f e with
  | Some x => Raise x
  | None => Ok (text e)
  end.

(** [e.get_attribute(name)] *)
Definition attribute_of (f : faults) (e : element) (name : string)
    : outcome (option string) :=
  match attribute_fault f e name with
  | Some x => Raise x
  | None => Ok (get_attribute e name)
  end.

(** [e.find_elements(by, value)] *)
Definition elements_of (f : faults) (e : element) (by_ : By) (value : string)
    : outcome (list element) :=
  match find_fault f e by_ value with
  | Some x => Raise x
  | None => Ok (find_elements e by_ value)
  end.

(** [e.find_element(by, value)] *)
Definition element_of (f : faults) (e : element) (by_ : By) (value : string)
    : outcome element :=
  match elements_of f e by_ value with
  | Ok found => first_match found
  | Raise x => Raise x
  end.

(** The handler of lines 57-58: the name is the cell's own text, the link
    is still "N/A". *)
Definition name_of_cell (f : faults) (cell_element : element)
    : outcome (string * option string) :=
  match text_of f cell_element with
  | Ok t => Ok (PyStr.strip t, Some "N/A")
  | Raise e => Raise e
  end.

(** Lines 50-59, the reads being driver calls: a [NoSuchElementException]
    from any of the three calls of the [try] goes to the handler, any other
    failure leaves the function. *)
Definition extract_horse_jockey_trainer_info_live (f : faults) (cell_element : element)
    : outcome (string * option string) :=
  match element_of f cell_element TAG_NAME "a" with
  | Ok link_element =>
      match text_of f link_element with
      | Ok t =>
          match attribute_of f link_element "href" with
          | Ok link => Ok (PyStr.strip t, link)
          | Raise NoSuchElementException => name_of_cell f cell_element
          | Raise e => Raise e
          end
      | Raise NoSuchElementException => name_of_cell f cell_element
      | Raise e => Raise e
      end
  | Raise NoSuchElementException => name_of_cell f cell_element
  | Raise e => Raise e
  end.

(** [cols[i].text.strip()] *)
Definition cell_text_live (f : faults) (cols : list element) (i : nat) : M string :=
  c <- index cols i ;;
  t <- lift (text_of f c) ;;
  ret (PyStr.strip t).

(** [extract_horse_jockey_trainer_info(cols[i])] *)
Definition cell_info_live (f : faults) (cols : list element) (i : nat)
    : M (string * option string) :=
  c <- index cols i ;; lift (extract_horse_jockey_trainer_info_live f c).

(** [[rp.text.strip() for rp in divs if rp.text.strip()]]: the text of a
    sub-element is read for the test and, when it is kept, once more. *)
Fixpoint stripped_texts_live (f : faults) (divs : list element) : outcome (list string) :=
  match divs with
  | [] => Ok []
  | rp :: rest =>
      match text_of f rp with
      | Raise e => Raise e
      | Ok t =>
          if PyStr.truthy (PyStr.strip t)
          then match text_of f rp with
               | Raise e => Raise e
               | Ok t' =>
                   match stripped_texts_live f rest with
                   | Ok l => Ok (PyStr.strip t' :: l)
                   | Raise e => Raise e
                   end
               end
          else stripped_texts_live f rest
      end
  end.

(** Line 184. *)
Definition running_position_live (f : faults) (cols : list element) : M string :=
  c <- index cols 9 ;;
  divs <- lift (elements_of f c XPATH ".//div/div") ;;
  texts <- lift (stripped_texts_live f divs) ;;
  ret (PyStr.join " " texts).

(** Lines 157-188. *)
Definition row_body_live (f : faults) (meet_date race_url : string) (row : element)
    : M unit :=
  cols <- lift (elements_of f row TAG_NAME "td") ;;
  if (List.length cols <? 12)%nat then ret tt
  else
    placing <- cell_text_live f cols 0 ;;
    horse <- cell_info_live f cols 2 ;;
    st <- get_state ;;
    horse_no <- cell_text_live f cols 1 ;;
    jockey_name <- cell_info_live f cols 3 ;;
    jockey_link <- cell_info_live f cols 3 ;;
    trainer_name <- cell_info_live f cols 4 ;;
    trainer_link <- cell_info_live f cols 4 ;;
    actual_wt <- cell_text_live f cols 5 ;;
    declar_horse_wt <- cell_text_live f cols 6 ;;
    draw <- cell_text_live f cols 7 ;;
    lbw <- cell_text_live f cols 8 ;;
    running <- running_position_live f cols ;;
    finish_time <- cell_text_live f cols 10 ;;
    win_odds <- cell_text_live f cols 11 ;;
    let horse_data :=
      {| MeetDate := meet_date;
         RaceURL := race_url;
         RaceHeader := race_header_full (race st);
         RaceDetails := race_details_text (race st);
         RaceSpecificName := race_specific_name (race st);
         RaceGoing := race_going (race st);
         RaceCourse := race_course (race st);
         Placing := placing;
         HorseNo := horse_no;
         HorseName := fst horse;
         HorseLink := snd horse;
         JockeyName := fst jockey_name;
         JockeyLink := snd jockey_link;
         TrainerName := fst trainer_name;
         TrainerLink := snd trainer_link;
         ActualWt := actual_wt;
         DeclarHorseWt := declar_horse_wt;
         Draw := draw;
         LBW := lbw;
         RunningPosition := running;
         FinishTime := finish_time;
         WinOdds := win_odds |} in
    st' <- get_state ;;
    set_meet_data (meet_data_for_csv st' ++ [horse_data]).

Fixpoint rows_loop_live (f : faults) (meet_date race_url : string)
    (body_rows : list element) : M unit :=
  match body_rows with
  | [] => ret tt
  | row :: rest =>
      row_body_live f meet_date race_url row ;;
      rows_loop_live f meet_date race_url rest
  end.

(** The body of the [try] of lines 152-190. *)
Definition performance_try (w : world) (f : faults) (meet_date race_url : string)
    : M unit :=
  performance_table <- driver_find_element w XPATH performance_table_locator ;;
  body_rows <- lift (elements_of f performance_table XPATH "./tbody/tr") ;;
  rows_loop_live f meet_date race_url body_rows ;;
  print (MsgScrapedHorses (List.length body_rows)).

(** Lines 152-192. *)
Definition performance_live (w : world) (f : faults) (meet_date race_url : string)
    : M unit :=
  r <- try_ (performance_try w f meet_date race_url) ;;
  match r with
  | Ok _ => ret tt
  | Raise e => print (MsgPerformanceError race_url e)
  end.

(** ** Definitions used to state the properties *)

(** The text that follows the last occurrence of [sep] in [s], if there is
    an occurrence: the right-most position at which [sep] starts wins. *)
Fixpoint after_last (sep s : string) : option string :=
  let here := if prefix sep s then Some (PyStr.drop (length sep) s) else None in
  match s with
  | EmptyString => here
  | String _ s' =>
      match after_last sep s' with
      | Some t => Some t
      | None => here
      end
  end.

(** The race number as the property of the sort key words it: the integer
    value of what follows the last "RaceNo=" when all of that is decimal
    digits, and 0 otherwise. *)
Definition race_no_spec (url : string) : Z :=
  match after_last RaceNo_eq url with
  | Some t => if PyStr.all_digits t then PyStr.int t else 0%Z
  | None => 0%Z
  end.

(** The order of the keys. *)
Definition le_by {A : Type} (key : A -> Z) (a b : A) : Prop := (key a <= key b)%Z.


(** [u] stands somewhere before [v] in [l]. *)
Definition precedes (u v : string) (l : list string) : Prop :=
  exists l1 l2 l3, l = l1 ++ u :: l2 ++ v :: l3.

(** The URLs of the race pages asked for, in the order of the requests. *)
Fixpoint race_visits (tr : list event) : list string :=
  match tr with
  | [] => []
  | Get RacePage url :: tr' => url :: race_visits tr'
  | _ :: tr' => race_visits tr'
  end.

(** Whatever the state, running [m] asks for the race pages [v], in that
    order; [quiet]: for none. *)
Definition visits {A : Type} (m : M A) (v : list string) : Prop :=
  forall st, race_visits (trace (snd (m st))) = race_visits (trace st) ++ v.

Definition quiet {A : Type} (m : M A) : Prop := visits m [].


(** The state with more trace, and nothing else changed. *)
Definition with_trace (st : state) (new : list event) : state :=
  mk_state (files st) (all_meets_data st) (meet_data_for_csv st) (race st)
           (trace st ++ new).

(** The state with one more row collected for the meet. *)
Definition with_row (st : state) (row : horse_data) : state :=
  mk_state (files st) (all_meets_data st) (meet_data_for_csv st ++ [row]) (race st)
           (trace st).

(** What the landing-page [try] of a date ends in: the load, then the wait
    for one of the two markers. *)
Definition landing_outcome (w : world) (single_date : date) (st : state) : outcome unit :=
  let pg := web w (requested (trace st) ++ [initial_url_of single_date]) in
  match load pg with
  | Ok _ => wait_until pg 10 XPATH landing_marker
  | Raise e => Raise e
  end.

(** The line printed by the handler of the landing-page [try]. *)
Definition landing_message (single_date : date) (e : exn) : message :=
  match e with
  | TimeoutException => MsgLandingTimeout (Calendar.strftime_dmY single_date)
  | _ => MsgLandingError (initial_url_of single_date) e
  end.

(** The property of C3 as it is worded, for the failures the script has no
    handler for by name (a failed write apart): none of them ends the run,
    so processing a date never raises. *)
Definition unexpected_failures_caught : Prop :=
  forall w single_date st,
    (forall name, disk w name = Ok tt) ->
    fst (process_date w single_date st) = Ok tt.

(** The running-position text as the property words it: the stripped texts
    of the sub-elements, the empty ones left out, joined by single spaces. *)
Definition running_position_spec (cell : element) : string :=
  PyStr.join " "
    (filter PyStr.truthy
       (map (fun rp => PyStr.strip (text rp)) (find_elements cell XPATH ".//div/div"))).

(** What a race-info field holds after a lookup of its cell. *)
Definition field_value (race_info_element : element) (path : string) : string :=
  match find_elements race_info_element XPATH path with
  | [] => NA
  | cell :: _ => PyStr.strip (text cell)
  end.




(** The rows of the meet have grown at their end, the trace too, and nothing
    else has changed. *)
Definition rows_added (st st' : state) : Prop :=
  exists more new,
    st' = mk_state (files st) (all_meets_data st) (meet_data_for_csv st ++ more)
                   (race st) (trace st ++ new).

(** ** Pages and worlds used as instances *)

(** An anchor element as the browser shows it: its text and its target. *)
Definition anchor (label href : string) : element :=
  Element label
          (fun name => if String.eqb name "href" then Some href else None)
          (fun _ _ => []).

(** A world in which nothing is found on any page, sets are enumerated in
    the order their members were added, and writes succeed. *)
Definition blank_page : page :=
  mk_page (Ok tt) (fun _ _ _ => Ok tt) (fun _ _ => Ok []).

Definition plain_world : world :=
  mk_world (fun _ => blank_page) (fun s => s) (fun s => Permutation_refl s)
           (fun _ => Ok tt).

(** The same, with sets enumerated from the member added last. *)
Definition reversing_world : world :=
  mk_world (fun _ => blank_page) (@rev string)
           (fun s => Permutation_sym (Permutation_rev s)) (fun _ => Ok tt).

Definition landing_2019_01_01 : string := initial_url_of (mkdate 2019 1 1).

Definition race_url (n : string) : string :=
  ("https://racing.hkjc.com/racing/information/English/Racing/LocalResults.aspx?RaceDate=2019/01/01&Racecourse=ST&RaceNo=" ++ n)%string.

(** The property of C2 as it is worded: every member without an
    identifiable race number stands before every member that has one. *)
Definition unnumbered_before_numbered (out : list string) : Prop :=
  forall u v, In u out -> In v out ->
    has_race_no u = false -> has_race_no v = true -> precedes u v out.

(** A table cell: its text and the anchors found in it. *)
Definition cell_of (label : string) (anchors : list element) : element :=
  Element label (fun _ => None)
          (fun by_ value =>
             match by_ with
             | TAG_NAME => if String.eqb value "a" then anchors else []
             | XPATH => []
             end).

Definition silver_fox_linked : element :=
  cell_of "Silver Fox" [anchor "Silver Fox" "/horse/123"].

Definition silver_fox_plain : element := cell_of "Silver Fox" [].

(** An element that answers a search by the entries of a table of paths. *)
Definition node (label : string) (by_ : By)
    (answers : list (string * list element)) : element :=
  Element label (fun _ => None)
          (fun by' value =>
             match by_, by' with
             | XPATH, XPATH | TAG_NAME, TAG_NAME =>
                 match List.find (fun a => String.eqb (fst a) value) answers with
                 | Some a => snd a
                 | None => []
                 end
             | _, _ => []
             end).

Definition leaf (label : string) : element := node label XPATH [].

(** A race info table in which the cell of the going is missing. *)
Definition info_without_going : element :=
  node "" XPATH
       [(".//thead/tr/td[1]", [leaf "RACE 1 (301)"]);
        (".//tbody/tr[2]/td[1]", [leaf "Class 5 - 1200M - (40-0)"]);
        (".//tbody/tr[3]/td[1]", [leaf "LUNG WUI HANDICAP"]);
        (".//tbody/tr[3]/td[3]", [leaf "TURF - A Course"])].

Definition info_page : page :=
  mk_page (Ok tt) (fun _ _ _ => Ok tt)
          (fun _ value => if String.eqb value race_tab then Ok [info_without_going]
                          else Ok []).

Definition info_world : world :=
  mk_world (fun _ => info_page) (fun s => s) (fun s => Permutation_refl s)
           (fun _ => Ok tt).

(** What [extract_horse_jockey_trainer_info] answers for a cell. *)
Definition name_link (cell : element) : string * option string :=
  match find_elements cell TAG_NAME "a" with
  | link_element :: _ => (PyStr.strip (text link_element), get_attribute link_element "href")
  | [] => (PyStr.strip (text cell), Some NA)
  end.

Definition no_element : element := Element "" (fun _ => None) (fun _ _ => []).

(** The row that a table row of at least 12 cells gives rise to. *)
Definition row_of (meet_date race_url : string) (rv : race_vars) (cols : list element)
    : horse_data :=
  let col i := nth i cols no_element in
  let cell i := PyStr.strip (text (col i)) in
  {| MeetDate := meet_date;
     RaceURL := race_url;
     RaceHeader := race_header_full rv;
     RaceDetails := race_details_text rv;
     RaceSpecificName := race_specific_name rv;
     RaceGoing := race_going rv;
     RaceCourse := race_course rv;
     Placing := cell 0%nat;
     HorseNo := cell 1%nat;
     HorseName := fst (name_link (col 2%nat));
     HorseLink := snd (name_link (col 2%nat));
     JockeyName := fst (name_link (col 3%nat));
     JockeyLink := snd (name_link (col 3%nat));
     TrainerName := fst (name_link (col 4%nat));
     TrainerLink := snd (name_link (col 4%nat));
     ActualWt := cell 5%nat;
     DeclarHorseWt := cell 6%nat;
     Draw := cell 7%nat;
     LBW := cell 8%nat;
     RunningPosition :=
       PyStr.join " " (stripped_texts (find_elements (col 9%nat) XPATH ".//div/div"));
     FinishTime := cell 10%nat;
     WinOdds := cell 11%nat |}.

(** A performance-table row with the given cells. *)
Definition row_with (cells : list element) : element :=
  node "" TAG_NAME [("td", cells)].

Definition eleven_cells : list element :=
  map leaf ["1"; "7"; "SILVER FOX"; "J Moreira"; "J Size"; "126"; "1105"; "3"; "-";
            "2 2 1"; "1:09.50"].

(** The running-position cell: three sub-elements, the middle one empty. *)
Definition running_cell : element :=
  node "2 1" XPATH [(".//div/div", [leaf " 2 "; leaf "  "; leaf "1"])].

Definition twelve_cells : list element :=
  [leaf "1"; leaf "7"; silver_fox_linked; cell_of "J Moreira" []; cell_of "J Size" [];
   leaf "126"; leaf "1105"; leaf "3"; leaf "-"; running_cell; leaf "1:09.50"; leaf "4.5"].

(** A world in which every page is a race day's and the search for the race
    links fails in the driver. *)
Definition lost_session : exn := WebDriverException "invalid session id".

Definition broken_links_page : page :=
  mk_page (Ok tt) (fun _ _ _ => Ok tt)
          (fun _ value => if String.eqb value race_links then Raise lost_session
                          else Ok []).

Definition broken_links_world : world :=
  mk_world (fun _ => broken_links_page) (fun s => s) (fun s => Permutation_refl s)
           (fun _ => Ok tt).

(** A world in which no page ever loads: every request fails in the driver. *)
Definition offline_page : page :=
  mk_page (Raise (WebDriverException "net::ERR_INTERNET_DISCONNECTED"))
          (fun _ _ _ => Ok tt) (fun _ _ => Ok []).

Definition offline_world : world :=
  mk_world (fun _ => offline_page) (fun s => s) (fun s => Permutation_refl s)
           (fun _ => Ok tt).

(** A world whose race pages hold no performance table once loaded. *)
Definition no_table_page : page :=
  mk_page (Ok tt) (fun _ _ _ => Ok tt) (fun _ _ => Ok []).

Definition no_table_world : world :=
  mk_world (fun _ => no_table_page) (fun s => s) (fun s => Permutation_refl s)
           (fun _ => Ok tt).

(** A meet of two races: the landing page shows the two race links and no
    performance table of its own; each race page shows the race info table
    and a performance table of three rows. *)
Definition three_rows : element :=
  node "" XPATH [("./tbody/tr", [row_with twelve_cells; row_with twelve_cells;
                                 row_with twelve_cells])].

Definition two_links_page : page :=
  mk_page (Ok tt)
          (fun _ _ value => if String.eqb value landing_marker then Ok tt
                            else Raise TimeoutException)
          (fun _ value => if String.eqb value race_links
                          then Ok [anchor "2" (race_url "2"); anchor "1" (race_url "1")]
                          else Ok []).

Definition one_race_page : page :=
  mk_page (Ok tt) (fun _ _ _ => Ok tt)
          (fun _ value => if String.eqb value performance_table_locator then Ok [three_rows]
                          else if String.eqb value race_tab then Ok [info_without_going]
                          else Ok []).

Definition two_race_world : world :=
  mk_world (fun history =>
              if String.eqb (last history EmptyString) landing_2019_01_01
              then two_links_page else one_race_page)
           (@rev string) (fun s => Permutation_sym (Permutation_rev s))
           (fun _ => Ok tt).

(** A performance table whose second row has gone stale by the time its
    cells are read. *)
Definition stale : exn := WebDriverException "stale element reference".

Definition stale_cells : list element :=
  [leaf "2"; leaf "3"; silver_fox_plain; cell_of "Z Purton" []; cell_of "J Size" [];
   leaf "STALE"; leaf "1090"; leaf "5"; leaf "1"; running_cell; leaf "1:09.70"; leaf "7"].

Definition stale_second_row : element :=
  node "" XPATH [("./tbody/tr", [row_with twelve_cells; row_with stale_cells;
                                 row_with twelve_cells])].

Definition stale_page : page :=
  mk_page (Ok tt) (fun _ _ _ => Ok tt)
          (fun _ value => if String.eqb value performance_table_locator
                          then Ok [stale_second_row] else Ok []).

Definition stale_world : world :=
  mk_world (fun _ => stale_page) (fun s => s) (fun s => Permutation_refl s)
           (fun _ => Ok tt).

Definition stale_reads : faults :=
  mk_faults (fun e => if String.eqb (text e) "STALE" then Some stale else None)
            (fun _ _ => None) (fun _ _ _ => None).

(** ** Definitions used to state further properties *)

(** [f] holds of the [fuel] integers from [z] on. *)
Fixpoint all_from (fuel : nat) (z : Z) (f : Z -> bool) : bool :=
  match fuel with
  | O => true
  | S fuel' => f z && all_from fuel' (z + 1)%Z f
  end.

(** A day number of the 400-year cycle that starts on 0000-03-01 comes back
    from its civil date. *)
Definition day_comes_back (doe : Z) : bool :=
  (Calendar.to_days (Calendar.of_days (doe - 719468)) =? doe - 719468)%Z.

(** The fields of a date fit the widths that [strftime] pads them to. *)
Definition fits_fields (d : date) : Prop :=
  (0 <= year d < 10000 /\ 0 <= month d < 100 /\ 0 <= day d < 100)%Z.

(** What the race-page [try] of a race ends in (lines 130-133): the load,
    then the wait for the performance table. *)
Definition race_page_outcome (w : world) (race_url : string) (st : state) : outcome unit :=
  let pg := web w (requested (trace st) ++ [race_url]) in
  match load pg with
  | Ok _ => wait_until pg 20 XPATH performance_table_locator
  | Raise e => Raise e
  end.

(** A world in which every date shows the notice of a day without races. *)
Definition no_race_page : page :=
  mk_page (Ok tt) (fun _ _ _ => Ok tt)
          (fun _ value => if String.eqb value no_race_notice
                          then Ok [leaf "No race meeting."] else Ok []).

Definition no_race_world : world :=
  mk_world (fun _ => no_race_page) (fun s => s) (fun s => Permutation_refl s)
           (fun _ => Ok tt).

(** A world whose pages load but never show what is waited for. *)
Definition slow_page : page :=
  mk_page (Ok tt) (fun _ _ _ => Raise TimeoutException) (fun _ _ => Ok []).

Definition slow_world : world :=
  mk_world (fun _ => slow_page) (fun s => s) (fun s => Permutation_refl s)
           (fun _ => Ok tt).

(** Running [m] takes every state to one that [R] relates it to, whether
    [m] returns or raises. *)
Definition keeps (R : state -> state -> Prop) {A : Type} (m : M A) : Prop :=
  forall st, R st (snd (m st)).

(** The files, the rows of the run and the rows of the meet are the same. *)
Definition same_data (st st' : state) : Prop :=
  files st' = files st
  /\ all_meets_data st' = all_meets_data st
  /\ meet_data_for_csv st' = meet_data_for_csv st.

(** The files and the rows of the run are the same. *)
Definition same_disk (st st' : state) : Prop :=
  files st' = files st /\ all_meets_data st' = all_meets_data st.

(** No file has gone. *)
Definition files_stay (st st' : state) : Prop :=
  forall name, has_file name st = true -> has_file name st' = true.

(** The trace has grown, and not by a [Quit]. *)
Definition no_quit (st st' : state) : Prop :=
  exists new, trace st' = trace st ++ new /\ ~ In Quit new.

(** If the rows of the meet carried the date, they still do. *)
Definition dated (meet_date : string) (st st' : state) : Prop :=
  Forall (fun r => MeetDate r = meet_date) (meet_data_for_csv st) ->
  Forall (fun r => MeetDate r = meet_date) (meet_data_for_csv st').

(** A row carries the date, the URL and the race variables given. *)
Definition tagged (meet_date race_url : string) (rv : race_vars) (r : horse_data) : Prop :=
  MeetDate r = meet_date /\ RaceURL r = race_url
  /\ RaceHeader r = race_header_full rv /\ RaceDetails r = race_details_text rv
  /\ RaceSpecificName r = race_specific_name rv
  /\ RaceGoing r = race_going rv /\ RaceCourse r = race_course rv.

(** What a meet may do to the disk and to the rows of the run: nothing, or
    add its own file, with rows that all carry its date, and append those
    rows to the rows of the run. *)
Definition meet_effect (meet_date output_filename : string) (st st' : state) : Prop :=
  same_disk st st'
  \/ exists rows,
       rows <> []
       /\ Forall (fun r => MeetDate r = meet_date) rows
       /\ files st' = (output_filename, rows) :: files st
       /\ all_meets_data st' = all_meets_data st ++ rows.

(** Run from a state without the file, [m] has at most that effect. *)
Definition effect_of (meet_date output_filename : string) {A : Type} (m : M A) : Prop :=
  forall st, has_file output_filename st = false ->
             meet_effect meet_date output_filename st (snd (m st)).

(** The state in which the loop over the dates starts (line 63). *)
Definition fresh_run (st : state) : state :=
  mk_state (files st) [] (meet_data_for_csv st) (race st) (trace st).

(** The lines printed for a date that is skipped for its file. *)
Definition skip_lines (single_date : date) : list event :=
  [Print (MsgCheckingDate (Calendar.strftime_dmY single_date));
   Print (MsgFileExists (output_filename_of single_date))].

(** Two meet files of an earlier run. *)
Definition two_files : list (string * list horse_data) :=
  [("races_2019-01-01.csv", []); ("races_2019-01-02.csv", [])].

(** The condition of line 117 on the target of a link. *)
Definition is_race_link (href : string) : bool :=
  PyStr.truthy href
  && PyStr.contains "LocalResults.aspx" href
  && negb (PyStr.contains "ResultsAll.aspx" href).

(** The file that a date and its rows make. *)
Definition file_of (written : date * list horse_data) : string * list horse_data :=
  (output_filename_of (fst written), snd written).

(** The rows are some, and all carry the date. *)
Definition rows_of_date (written : date * list horse_data) : Prop :=
  snd written <> []
  /\ Forall (fun r => MeetDate r = Calendar.strftime_dmY (fst written)) (snd written).

(** [l] is [l'] with some members left out, the others in their order. *)
Inductive subsequence {A : Type} : list A -> list A -> Prop :=
  | subsequence_nil : forall l', subsequence [] l'
  | subsequence_skip : forall x l l', subsequence l l' -> subsequence l (x :: l')
  | subsequence_take : forall x l l', subsequence l l' -> subsequence (x :: l) (x :: l').

(** * Properties *)

(** ** Strings *)

Lemma prefix_drop (sub s : string) :
  prefix sub s = true -> s = (sub ++ PyStr.drop (length sub) s)%string.
Proof.
  revert s; induction sub as [|a sub IH]; intros s H.
  - reflexivity.
  - destruct s as [|b s]; simpl in H; [discriminate|].
    destruct (ascii_dec a b) as [->|]; [|discriminate].
    simpl. f_equal. apply IH, H.
Qed.

Lemma prefix_empty (t : string) : prefix "" t = true.
Proof. destruct t; reflexivity. Qed.

Lemma prefix_app (sub t : string) : prefix sub (sub ++ t)%string = true.
Proof.
  induction sub as [|a sub IH]; simpl; [apply prefix_empty|].
  destruct (ascii_dec a a); [exact IH | congruence].
Qed.

Lemma drop_app (sub t : string) : PyStr.drop (length sub) (sub ++ t)%string = t.
Proof. induction sub; simpl; auto. Qed.

Lemma length_append (s t : string) : length (s ++ t)%string = (length s + length t)%nat.
Proof. induction s; simpl; auto. Qed.

Lemma append_assoc (s t u : string) : ((s ++ t) ++ u = s ++ t ++ u)%string.
Proof. induction s; simpl; congruence. Qed.

Lemma length_drop (n : nat) (s : string) :
  length (PyStr.drop n s) = (length s - n)%nat.
Proof.
  revert s; induction n; intros [|c s]; simpl; auto.
Qed.

Lemma after_last_here (sep s : string) :
  prefix sep s = true -> after_last sep s <> None.
Proof.
  intros P. destruct s as [|c s]; cbn [after_last].
  - rewrite P. discriminate.
  - destruct (after_last sep s); [discriminate|].
    rewrite P. discriminate.
Qed.

Lemma after_last_complete (sep pre t : string) :
  after_last sep (pre ++ sep ++ t)%string <> None.
Proof.
  induction pre as [|c pre IH].
  - cbn [append]. apply after_last_here, prefix_app.
  - cbn [append after_last].
    destruct (after_last sep (pre ++ sep ++ t)%string); [discriminate|].
    congruence.
Qed.

Lemma after_last_sound (sep s t : string) :
  after_last sep s = Some t ->
  exists pre, s = (pre ++ sep ++ t)%string /\
    forall pre' t', s = (pre' ++ sep ++ t')%string -> (length pre' <= length pre)%nat.
Proof.
  revert t; induction s as [|c s IH]; intros t H; cbn [after_last] in H.
  - destruct (prefix sep "") eqn:P; [|discriminate].
    injection H as <-. exists "". split.
    + apply prefix_drop in P. exact P.
    + intros pre' t' E. destruct pre'; [simpl; lia | discriminate].
  - destruct (after_last sep s) as [t0|] eqn:A.
    + injection H as <-. destruct (IH _ eq_refl) as (pre & E & Hmax).
      exists (String c pre). split; [simpl; congruence|].
      intros pre' t' E'. destruct pre' as [|c' pre']; simpl; [lia|].
      simpl in E'. injection E' as _ E'. apply Hmax in E'. lia.
    + destruct (prefix sep (String c s)) eqn:P; [|discriminate].
      injection H as <-. exists "". split.
      * apply prefix_drop in P. exact P.
      * intros pre' t' E'. destruct pre' as [|c' pre']; simpl; [lia|].
        simpl in E'. injection E' as _ E'.
        exfalso. revert A. rewrite E'. apply after_last_complete.
Qed.

Lemma find_none_after_last (sep s : string) :
  PyStr.find sep s = None -> after_last sep s = None.
Proof.
  induction s as [|c s IH]; cbn [after_last PyStr.find].
  - destruct (prefix sep ""); [discriminate | reflexivity].
  - destruct (prefix sep (String c s)); [discriminate|].
    destruct (PyStr.find sep s); [discriminate|].
    intros _. rewrite IH; reflexivity.
Qed.

Lemma find_some_after_last (sep s : string) (i : nat) :
  PyStr.find sep s = Some i ->
  after_last sep s = after_last sep (PyStr.drop i s)
  /\ prefix sep (PyStr.drop i s) = true /\ (i <= length s)%nat.
Proof.
  revert i; induction s as [|c s IH]; intros i; cbn [PyStr.find].
  - destruct (prefix sep "") eqn:P; [|discriminate].
    intros [= <-]. cbn [PyStr.drop]. auto.
  - destruct (prefix sep (String c s)) eqn:P.
    + intros [= <-]. cbn [PyStr.drop]. split; [reflexivity | split; [exact P | simpl; lia]].
    + destruct (PyStr.find sep s) as [j|] eqn:F; [|discriminate].
      intros [= <-]. destruct (IH _ eq_refl) as (E & Q & L).
      cbn [PyStr.drop after_last]. rewrite <- E, P. split; [|split; [exact Q | simpl; lia]].
      destruct (after_last sep s); reflexivity.
Qed.

Lemma drop_drop (i j : nat) (s : string) :
  PyStr.drop j (PyStr.drop i s) = PyStr.drop (i + j) s.
Proof.
  revert s; induction i as [|i IH]; intros s; [reflexivity|].
  destruct s as [|c s]; cbn [PyStr.drop Nat.add].
  - destruct j; reflexivity.
  - apply IH.
Qed.

Lemma split_from_nonempty (fuel : nat) (sep s : string) :
  PyStr.split_from fuel sep s <> [].
Proof.
  destruct fuel; cbn [PyStr.split_from]; [discriminate|].
  destruct (PyStr.find sep s); discriminate.
Qed.

Lemma last_piece_cons (x : string) (l : list string) :
  l <> [] -> PyStr.last_piece (x :: l) = PyStr.last_piece l.
Proof. destruct l; [congruence | reflexivity]. Qed.

(** "RaceNo=" cannot overlap itself: after an occurrence, the search for the
    last one goes on behind it. *)
Lemma after_last_RaceNo (rest : string) :
  after_last RaceNo_eq (RaceNo_eq ++ rest)%string
  = Some (match after_last RaceNo_eq rest with Some t => t | None => rest end).
Proof.
  unfold RaceNo_eq. cbn.
  destruct (after_last "RaceNo=" rest); [reflexivity|].
  rewrite prefix_empty. reflexivity.
Qed.

Lemma last_piece_split_from (fuel : nat) (s : string) :
  (length s < fuel)%nat ->
  PyStr.last_piece (PyStr.split_from fuel RaceNo_eq s)
  = match after_last RaceNo_eq s with Some t => t | None => s end.
Proof.
  revert s; induction fuel as [|fuel IH]; intros s L; [lia|].
  cbn [PyStr.split_from].
  destruct (PyStr.find RaceNo_eq s) as [i|] eqn:F.
  - destruct (find_some_after_last _ _ _ F) as (E & Q & Li).
    apply prefix_drop in Q. rewrite drop_drop in Q.
    rewrite last_piece_cons by apply split_from_nonempty.
    rewrite IH.
    + rewrite E, Q, after_last_RaceNo. reflexivity.
    + apply (f_equal length) in Q.
      rewrite length_append, !length_drop in Q. rewrite length_drop.
      change (length RaceNo_eq) with 7%nat in *. lia.
  - rewrite (find_none_after_last _ _ F). reflexivity.
Qed.

Lemma last_piece_split (s : string) :
  PyStr.last_piece (PyStr.split RaceNo_eq s)
  = match after_last RaceNo_eq s with Some t => t | None => s end.
Proof. apply last_piece_split_from. lia. Qed.

Lemma contains_after_last (sep s : string) :
  PyStr.contains sep s = match after_last sep s with Some _ => true | None => false end.
Proof.
  unfold PyStr.contains. destruct (PyStr.find sep s) as [i|] eqn:F.
  - destruct (find_some_after_last _ _ _ F) as (E & Q & _).
    rewrite E. apply after_last_here in Q.
    destruct (after_last sep (PyStr.drop i s)); [reflexivity | congruence].
  - rewrite (find_none_after_last _ _ F). reflexivity.
Qed.

Lemma isdigit_all_digits (t : string) :
  PyStr.isdigit t = PyStr.truthy t && PyStr.all_digits t.
Proof. destruct t; reflexivity. Qed.

(** [has_race_no] is the guard of [sort_key]. *)
Lemma sort_key_guard (url : string) :
  sort_key url
  = if has_race_no url
    then PyStr.int (PyStr.last_piece (PyStr.split RaceNo_eq url)) else 0%Z.
Proof. reflexivity. Qed.

Lemma sort_key_without_race_no (url : string) :
  has_race_no url = false -> sort_key url = 0%Z.
Proof. intros H. rewrite sort_key_guard, H. reflexivity. Qed.

Lemma digit_value_nonneg (c : ascii) :
  PyStr.is_digit c = true -> (0 <= PyStr.digit_value c)%Z.
Proof.
  unfold PyStr.is_digit, PyStr.digit_value. intros H.
  apply andb_prop in H as [H _]. apply Nat.leb_le in H.
  revert H. generalize (nat_of_ascii c). intros n H. lia.
Qed.

Lemma int_from_nonneg (s : string) (acc : Z) :
  PyStr.all_digits s = true -> (0 <= acc)%Z -> (0 <= PyStr.int_from acc s)%Z.
Proof.
  revert acc; induction s as [|c s IH]; intros acc D A;
    cbn [PyStr.all_digits PyStr.int_from] in *; [exact A|].
  apply andb_prop in D as [Dc Ds]. apply IH; [exact Ds|].
  pose proof (digit_value_nonneg c Dc). lia.
Qed.

Lemma sort_key_nonneg (url : string) : (0 <= sort_key url)%Z.
Proof.
  unfold sort_key.
  destruct (PyStr.contains RaceNo_eq url); cbn [andb]; [|lia].
  destruct (PyStr.isdigit _) eqn:D; [|lia].
  rewrite isdigit_all_digits in D. apply andb_prop in D as [_ D].
  apply int_from_nonneg; [exact D | lia].
Qed.

(** C10: the sort key of a URL is the integer value of the text after the
    last "RaceNo=" when that whole text consists of decimal digits, and 0
    otherwise; so "...RaceNo=3&Foo=1" has key 0 and not 3. *)
Theorem sort_key_is_trailing_race_no :
  (forall url, sort_key url = race_no_spec url)
  /\ sort_key "https://racing.hkjc.com/racing/information/English/racing/LocalResults.aspx?RaceDate=2019/01/01&RaceNo=3&Foo=1" = 0%Z
  /\ sort_key "https://racing.hkjc.com/racing/information/English/racing/LocalResults.aspx?RaceDate=2019/01/01&Foo=1&RaceNo=3" = 3%Z.
Proof.
  split; [|split; reflexivity].
  intros url. unfold sort_key, race_no_spec.
  rewrite contains_after_last, last_piece_split.
  destruct (after_last RaceNo_eq url) as [t|]; [|reflexivity].
  cbn [andb]. rewrite isdigit_all_digits.
  destruct t as [|c t]; [reflexivity|].
  cbn [PyStr.truthy andb]. reflexivity.
Qed.

(** The bound that [split] hands to [split_from] is never used up. *)
Lemma split_from_enough (n m : nat) (sep s : string) :
  sep <> EmptyString -> (length s < n)%nat -> (length s < m)%nat ->
  PyStr.split_from n sep s = PyStr.split_from m sep s.
Proof.
  intros Hsep. revert m s; induction n as [|n IH]; intros m s Ln Lm; [lia|].
  destruct m as [|m]; [lia|]. cbn [PyStr.split_from].
  destruct (PyStr.find sep s) as [i|] eqn:F; [|reflexivity].
  f_equal.
  destruct (find_some_after_last _ _ _ F) as (_ & Q & _).
  apply prefix_drop in Q. apply (f_equal length) in Q.
  rewrite length_append, !length_drop in Q.
  assert (0 < length sep)%nat by (destruct sep; [congruence | simpl; lia]).
  apply IH; rewrite length_drop; lia.
Qed.

(** ** Sorting *)

Section SortedFacts.
Context {A : Type} (key : A -> Z).

Lemma insert_by_perm (x : A) (l : list A) :
  Permutation (insert_by key x l) (x :: l).
Proof.
  induction l as [|y l IH]; cbn [insert_by]; [reflexivity|].
  destruct (key x <=? key y)%Z; [reflexivity|].
  rewrite IH. apply perm_swap.
Qed.

Lemma sorted_perm (l : list A) : Permutation (sorted key l) l.
Proof.
  induction l as [|x l IH]; cbn [sorted]; [reflexivity|].
  rewrite insert_by_perm. constructor. exact IH.
Qed.

Lemma insert_by_sorted (x : A) (l : list A) :
  StronglySorted (le_by key) l -> StronglySorted (le_by key) (insert_by key x l).
Proof.
  induction 1 as [|y l Hl IH Hy]; cbn [insert_by].
  - repeat constructor.
  - destruct (key x <=? key y)%Z eqn:E.
    + apply Z.leb_le in E. constructor; [constructor; assumption|].
      constructor; [exact E|].
      eapply Forall_impl; [|exact Hy]. unfold le_by; intros; lia.
    + apply Z.leb_gt in E. constructor; [exact IH|].
      rewrite (Forall_forall (le_by key y)). intros z Hz.
      apply (Permutation_in _ (insert_by_perm x l)) in Hz.
      destruct Hz as [<-|Hz]; [unfold le_by; lia|].
      rewrite Forall_forall in Hy. auto.
Qed.

Lemma sorted_sorted (l : list A) : StronglySorted (le_by key) (sorted key l).
Proof.
  induction l as [|x l IH]; cbn [sorted]; [constructor|].
  apply insert_by_sorted, IH.
Qed.

(** The sort is stable: elements of equal key keep their order. *)
Lemma insert_by_stable (k : Z) (x : A) (l : list A) :
  filter (fun a => (key a =? k)%Z) (insert_by key x l)
  = filter (fun a => (key a =? k)%Z) (x :: l).
Proof.
  induction l as [|y l IH]; cbn [insert_by]; [reflexivity|].
  destruct (key x <=? key y)%Z eqn:E; [reflexivity|].
  apply Z.leb_gt in E. cbn [filter] in *. rewrite IH.
  destruct (key x =? k)%Z eqn:Ex, (key y =? k)%Z eqn:Ey; try reflexivity.
  apply Z.eqb_eq in Ex, Ey. lia.
Qed.

Lemma sorted_stable (k : Z) (l : list A) :
  filter (fun a => (key a =? k)%Z) (sorted key l)
  = filter (fun a => (key a =? k)%Z) l.
Proof.
  induction l as [|x l IH]; cbn [sorted]; [reflexivity|].
  rewrite insert_by_stable. cbn [filter]. rewrite IH. reflexivity.
Qed.


(** In a sorted list an element of smaller key stands before one of
    greater key. *)
Lemma sorted_lt_before (l : list A) (u v : A) :
  StronglySorted (le_by key) l -> In u l -> In v l -> (key u < key v)%Z ->
  exists l1 l2 l3, l = l1 ++ u :: l2 ++ v :: l3.
Proof.
  intros Hs Hu Hv Hlt.
  destruct (in_split _ _ Hv) as (a & b & ->).
  assert (Hua : In u a).
  { apply in_app_or in Hu as [Hu|[Hu|Hu]]; [exact Hu | subst; lia |].
    exfalso. clear - Hs Hu Hlt.
    induction a as [|x a IH]; cbn [app] in Hs.
    - inversion Hs as [|? ? _ Hall]; subst.
      rewrite Forall_forall in Hall. apply Hall in Hu. unfold le_by in Hu. lia.
    - inversion Hs; subst. auto. }
  destruct (in_split _ _ Hua) as (l1 & l2 & ->).
  exists l1, l2, b. rewrite <- app_assoc. reflexivity.
Qed.

(** A sorted list is the only sorted arrangement of a list of strictly
    increasing keys. *)
Lemma sorted_increasing_unique (L l : list A) :
  StronglySorted (fun a b => (key a < key b)%Z) L ->
  Permutation l L -> StronglySorted (le_by key) l -> l = L.
Proof.
  intros HL; revert l. induction HL as [|a L HL IH Ha]; intros l P Hl.
  - apply Permutation_nil. symmetry. exact P.
  - destruct l as [|x l]; [apply Permutation_nil_cons in P; contradiction|].
    assert (x = a) as ->.
    { assert (Hx : In x (a :: L)) by (eapply Permutation_in; [exact P | left; reflexivity]).
      destruct Hx as [->|Hx]; [reflexivity|].
      rewrite Forall_forall in Ha. specialize (Ha _ Hx).
      assert (Hal : In a (x :: l))
        by (eapply Permutation_in; [symmetry; exact P | left; reflexivity]).
      destruct Hal as [->|Hal]; [reflexivity|].
      inversion Hl as [|? ? _ Hall]; subst.
      rewrite Forall_forall in Hall. apply Hall in Hal. unfold le_by in Hal. lia. }
    f_equal. apply IH.
    + eapply Permutation_cons_inv. exact P.
    + inversion Hl; assumption.
Qed.
End SortedFacts.

(** ** Race-URL discovery *)

Lemma set_add_incl (x y : string) (s : list string) : In x s -> In x (set_add y s).
Proof.
  unfold set_add. destruct (existsb (String.eqb y) s); [auto|].
  intros H. apply in_or_app. left. exact H.
Qed.

Lemma add_links_incl (x : string) (links : list element) (s : list string) :
  In x s -> In x (add_links links s).
Proof.
  revert s; induction links as [|elem links IH]; intros s H; cbn [add_links]; [exact H|].
  destruct (get_attribute elem "href") as [href|]; [|auto].
  destruct (_ && _); auto using set_add_incl.
Qed.

Lemma sorted_race_urls_perm (w : world) (initial_url : string) (links : list element) :
  Permutation (sorted_race_urls w initial_url links) (race_page_urls initial_url links).
Proof.
  unfold sorted_race_urls. rewrite sorted_perm. apply set_iter_perm.
Qed.


Lemma precedes_pair (u v a b : string) : precedes u v [a; b] -> u = a /\ v = b.
Proof.
  intros (l1 & l2 & l3 & D). destruct l1 as [|x [|y l1]]; cbn [app] in D.
  - injection D as <- D. destruct l2 as [|z l2]; cbn [app] in D.
    + injection D as <- _. auto.
    + injection D as _ D. destruct l2; discriminate.
  - injection D as _ _ D. destruct l2; discriminate.
  - injection D as _ _ D. destruct l1; discriminate.
Qed.

(** C8: the landing page's own URL is always among the candidate race-page
    URLs and among the URLs to visit, which are therefore never empty; with
    no race link found, it is the only one. *)
Theorem landing_url_always_candidate (w : world) (initial_url : string)
    (race_links_elements : list element) :
  In initial_url (race_page_urls initial_url race_links_elements)
  /\ In initial_url (sorted_race_urls w initial_url race_links_elements)
  /\ sorted_race_urls w initial_url race_links_elements <> []
  /\ race_page_urls initial_url [] = [initial_url]
  /\ sorted_race_urls w initial_url [] = [initial_url].
Proof.
  assert (H : In initial_url (race_page_urls initial_url race_links_elements))
    by (apply add_links_incl; left; reflexivity).
  assert (H' : In initial_url (sorted_race_urls w initial_url race_links_elements))
    by (eapply Permutation_in; [symmetry; apply sorted_race_urls_perm | exact H]).
  repeat split; try assumption.
  - intros E. rewrite E in H'. exact H'.
  - unfold sorted_race_urls, race_page_urls. cbn [add_links].
    rewrite (Permutation_length_1_inv (Permutation_sym (set_iter_perm w [initial_url]))).
    reflexivity.
Qed.

(** C2 as worded fails: a link numbered 0 has the sort key of the links
    without a number, so it can come out in front of one of them. *)
Lemma numbered_zero_link_not_after_unnumbered :
  sorted_race_urls reversing_world landing_2019_01_01 [anchor "0" (race_url "0")]
    = [race_url "0"; landing_2019_01_01]
  /\ has_race_no landing_2019_01_01 = false
  /\ has_race_no (race_url "0") = true
  /\ ~ unnumbered_before_numbered
        (sorted_race_urls reversing_world landing_2019_01_01 [anchor "0" (race_url "0")]).
Proof.
  assert (E : sorted_race_urls reversing_world landing_2019_01_01
                [anchor "0" (race_url "0")] = [race_url "0"; landing_2019_01_01])
    by (vm_compute; reflexivity).
  repeat split; try (vm_compute; reflexivity).
  rewrite E. intros H.
  assert (D : precedes landing_2019_01_01 (race_url "0")
                       [race_url "0"; landing_2019_01_01]).
  { apply H; try (vm_compute; reflexivity);
      [right; left; reflexivity | left; reflexivity]. }
  apply precedes_pair in D as [D _].
  apply (f_equal (String.eqb (race_url "0"))) in D. vm_compute in D. discriminate.
Qed.

(** C2, amended: a link without an identifiable race number stands before
    every link whose race number is positive, and links numbered 3, 1 and 2
    come out in the order 1, 2, 3 (behind the landing page's own URL), however
    the set is enumerated. *)
Theorem unnumbered_before_positive_numbers (w : world) (initial_url : string)
    (race_links_elements : list element) (u v : string) :
  In u (sorted_race_urls w initial_url race_links_elements) ->
  In v (sorted_race_urls w initial_url race_links_elements) ->
  has_race_no u = false -> (0 < sort_key v)%Z ->
  precedes u v (sorted_race_urls w initial_url race_links_elements)
  /\ sorted_race_urls w landing_2019_01_01
       [anchor "3" (race_url "3"); anchor "1" (race_url "1"); anchor "2" (race_url "2")]
     = [landing_2019_01_01; race_url "1"; race_url "2"; race_url "3"].
Proof.
  intros Hu Hv Nu Pv. split.
  - apply (sorted_lt_before sort_key); try assumption.
    + apply (sorted_sorted sort_key).
    + rewrite (sort_key_without_race_no u Nu). exact Pv.
  - apply (sorted_increasing_unique sort_key).
    + repeat constructor; vm_compute; reflexivity.
    + rewrite sorted_race_urls_perm.
      unfold race_page_urls. vm_compute add_links.
      apply perm_skip.
      apply perm_trans with (l' := [race_url "1"; race_url "3"; race_url "2"]).
      * apply perm_swap.
      * apply perm_skip, perm_swap.
    + apply (sorted_sorted sort_key).
Qed.

Lemma unnumbered_before_positive_numbers_witness :
  precedes landing_2019_01_01 (race_url "2")
    (sorted_race_urls plain_world landing_2019_01_01
       [anchor "2" (race_url "2"); anchor "1" (race_url "1")])
  /\ sorted_race_urls plain_world landing_2019_01_01
       [anchor "3" (race_url "3"); anchor "1" (race_url "1"); anchor "2" (race_url "2")]
     = [landing_2019_01_01; race_url "1"; race_url "2"; race_url "3"].
Proof.
  apply (unnumbered_before_positive_numbers plain_world landing_2019_01_01
           [anchor "2" (race_url "2"); anchor "1" (race_url "1")]
           landing_2019_01_01 (race_url "2")).
  - vm_compute. left. reflexivity.
  - vm_compute. right. right. left. reflexivity.
  - vm_compute. reflexivity.
  - vm_compute. reflexivity.
Defined.

(** ** The extraction helpers *)

Lemma find_element_raises (e : element) (by_ : By) (value : string) (x : exn) :
  find_element e by_ value = Raise x -> x = NoSuchElementException.
Proof.
  unfold find_element, first_match.
  destruct (find_elements e by_ value); [intros [= <-]; reflexivity | discriminate].
Qed.

Lemma get_safe_text_total (element : element) (by_ : By) (value default : string) :
  get_safe_text element by_ value default
  = Ok match find_elements element by_ value with
       | [] => default
       | found :: _ => PyStr.strip (text found)
       end.
Proof.
  unfold get_safe_text, find_element, first_match.
  destruct (find_elements element by_ value); reflexivity.
Qed.

Lemma extract_total (cell : element) :
  extract_horse_jockey_trainer_info cell = Ok (name_link cell).
Proof.
  unfold extract_horse_jockey_trainer_info, name_link, find_element, first_match.
  destruct (find_elements cell TAG_NAME "a"); reflexivity.
Qed.

(** C6: for a horse, jockey or trainer cell that holds an anchor, the name
    is the anchor's text (as the script reads every text: stripped of
    surrounding white space) and the link is the anchor's target; for a cell
    without an anchor, the name is the cell's own text and the link is "N/A". *)
Theorem name_and_link_of_cell (cell_element : element) :
  (forall link_element others,
      find_elements cell_element TAG_NAME "a" = link_element :: others ->
      extract_horse_jockey_trainer_info cell_element
      = Ok (PyStr.strip (text link_element), get_attribute link_element "href"))
  /\ (find_elements cell_element TAG_NAME "a" = [] ->
      extract_horse_jockey_trainer_info cell_element
      = Ok (PyStr.strip (text cell_element), Some "N/A")).
Proof.
  split; [intros link_element others H | intros H];
    rewrite extract_total; unfold name_link; rewrite H; reflexivity.
Qed.

Lemma name_and_link_of_cell_witness :
  extract_horse_jockey_trainer_info silver_fox_linked
    = Ok ("Silver Fox", Some "/horse/123")
  /\ extract_horse_jockey_trainer_info silver_fox_plain
    = Ok ("Silver Fox", Some "N/A").
Proof.
  split.
  - exact (proj1 (name_and_link_of_cell silver_fox_linked)
                 (anchor "Silver Fox" "/horse/123") [] eq_refl).
  - exact (proj2 (name_and_link_of_cell silver_fox_plain) eq_refl).
Defined.

(** ** The race page *)

(** C7: a lookup of a race-info cell never raises: when the cell is not
    found the field is "N/A", and each of the five fields is what its own
    lookup gives, whatever the other lookups find. *)
Theorem race_info_fields_independent :
  (forall element by_ value,
      get_safe_text element by_ value "N/A"
      = Ok match find_elements element by_ value with
           | [] => "N/A"
           | found :: _ => PyStr.strip (text found)
           end)
  /\ (forall w race_url st race_info_element others,
      page_find_elements (current w st) XPATH race_tab = Ok (race_info_element :: others) ->
      let rv := mk_race_vars (field_value race_info_element ".//thead/tr/td[1]")
                             (field_value race_info_element ".//tbody/tr[2]/td[1]")
                             (field_value race_info_element ".//tbody/tr[3]/td[1]")
                             (field_value race_info_element ".//tbody/tr[2]/td[3]")
                             (field_value race_info_element ".//tbody/tr[3]/td[3]") in
      race_info w race_url st
      = (Ok tt,
         mk_state (files st) (all_meets_data st) (meet_data_for_csv st) rv
                  (trace st ++ [Print (MsgRaceInfo (race_header_full rv) (race_going rv)
                                                   (race_course rv))]))).
Proof.
  split; [intros; apply get_safe_text_total|].
  intros w race_url st race_info_element others H rv.
  unfold current in H.
  unfold race_info, try_, bind, driver_find_element, driver_find_elements, get_state,
    lift, set_race, current.
  cbn. rewrite H. cbn.
  rewrite !get_safe_text_total. cbn.
  reflexivity.
Qed.

Lemma race_info_fields_independent_witness :
  race_info info_world "u" (initial_state [])
  = (Ok tt,
     mk_state [] [] []
       (mk_race_vars "RACE 1 (301)" "Class 5 - 1200M - (40-0)" "LUNG WUI HANDICAP"
                     "N/A" "TURF - A Course")
       [Print (MsgRaceInfo "RACE 1 (301)" "N/A" "TURF - A Course")]).
Proof.
  rewrite (proj2 race_info_fields_independent info_world "u" (initial_state [])
                 info_without_going [] eq_refl).
  reflexivity.
Defined.

(** ** The performance-table rows *)

Lemma stripped_texts_filter (divs : list element) :
  stripped_texts divs
  = filter PyStr.truthy (map (fun rp => PyStr.strip (text rp)) divs).
Proof.
  induction divs as [|rp divs IH]; cbn [stripped_texts map filter]; [reflexivity|].
  rewrite IH. reflexivity.
Qed.

Lemma row_body_short (meet_date race_url : string) (row : element) (st : state) :
  (List.length (find_elements row TAG_NAME "td") < 12)%nat ->
  row_body meet_date race_url row st = (Ok tt, st).
Proof.
  intros H. unfold row_body. apply Nat.ltb_lt in H. rewrite H. reflexivity.
Qed.

Lemma at_least_12 {A : Type} (l : list A) :
  (12 <= List.length l)%nat ->
  exists c0 c1 c2 c3 c4 c5 c6 c7 c8 c9 c10 c11 more,
    l = c0 :: c1 :: c2 :: c3 :: c4 :: c5 :: c6 :: c7 :: c8 :: c9 :: c10 :: c11 :: more.
Proof.
  intros H.
  do 12 (destruct l as [|? l]; [cbn in H; lia|]).
  repeat eexists.
Qed.

Lemma row_body_valid (meet_date race_url : string) (row : element) (st : state) :
  (12 <= List.length (find_elements row TAG_NAME "td"))%nat ->
  row_body meet_date race_url row st
  = (Ok tt,
     with_row st (row_of meet_date race_url (race st) (find_elements row TAG_NAME "td"))).
Proof.
  intros H. unfold row_body.
  destruct (at_least_12 _ H)
    as (c0 & c1 & c2 & c3 & c4 & c5 & c6 & c7 & c8 & c9 & c10 & c11 & more & ->).
  unfold cell_info, cell_text, running_position, index, bind, lift, ret, get_state,
    set_meet_data.
  cbn [List.length Nat.ltb Nat.leb nth_error].
  rewrite !extract_total.
  reflexivity.
Qed.

(** C5: a body row of the performance table that splits into fewer than 12
    cells adds no row to the meet's data and raises nothing; a row of 12
    cells (or more) adds exactly one. *)
Theorem row_emitted_iff_twelve_cells (meet_date race_url : string) (row : element)
    (st : state) :
  ((List.length (find_elements row TAG_NAME "td") < 12)%nat ->
   row_body meet_date race_url row st = (Ok tt, st))
  /\ ((12 <= List.length (find_elements row TAG_NAME "td"))%nat ->
      exists horse_data,
        row_body meet_date race_url row st = (Ok tt, with_row st horse_data)
        /\ meet_data_for_csv (snd (row_body meet_date race_url row st))
           = meet_data_for_csv st ++ [horse_data]).
Proof.
  split; intros H.
  - apply row_body_short, H.
  - eexists. rewrite (row_body_valid _ _ _ _ H). split; reflexivity.
Qed.

Lemma row_emitted_iff_twelve_cells_witness :
  meet_data_for_csv
    (snd (row_body "01/01/2019" (race_url "1") (row_with eleven_cells) (initial_state [])))
  = []
  /\ List.length
       (meet_data_for_csv
          (snd (row_body "01/01/2019" (race_url "1") (row_with twelve_cells)
                         (initial_state []))))
     = 1%nat.
Proof.
  split.
  - rewrite (proj1 (row_emitted_iff_twelve_cells "01/01/2019" (race_url "1")
                      (row_with eleven_cells) (initial_state []))).
    + reflexivity.
    + vm_compute. lia.
  - destruct (proj2 (row_emitted_iff_twelve_cells "01/01/2019" (race_url "1")
                       (row_with twelve_cells) (initial_state [])))
      as (horse_data & _ & E).
    + vm_compute. lia.
    + rewrite E. reflexivity.
Defined.

(** C9: for a row of at least 12 cells, the RunningPosition of the row it
    adds is the stripped texts of the sub-elements of the tenth cell's nested
    container, in document order, without the empty ones, joined by single
    spaces. *)
Theorem running_position_joined (meet_date race_url : string) (row : element)
    (st : state) (cell : element) :
  (12 <= List.length (find_elements row TAG_NAME "td"))%nat ->
  nth_error (find_elements row TAG_NAME "td") 9 = Some cell ->
  exists horse_data,
    row_body meet_date race_url row st = (Ok tt, with_row st horse_data)
    /\ RunningPosition horse_data = running_position_spec cell.
Proof.
  intros H C. eexists. split; [apply row_body_valid, H|].
  unfold row_of, running_position_spec. cbn [RunningPosition].
  rewrite (nth_error_nth _ _ no_element C), stripped_texts_filter. reflexivity.
Qed.

Lemma running_position_joined_witness :
  exists horse_data,
    row_body "01/01/2019" (race_url "1") (row_with twelve_cells) (initial_state [])
    = (Ok tt, with_row (initial_state []) horse_data)
    /\ RunningPosition horse_data = "2 1".
Proof.
  destruct (running_position_joined "01/01/2019" (race_url "1") (row_with twelve_cells)
              (initial_state []) running_cell) as (horse_data & E & R).
  - vm_compute. lia.
  - reflexivity.
  - exists horse_data. split; [exact E|]. rewrite R. reflexivity.
Defined.

(** ** The script *)

Lemma requested_app (a b : list event) : requested (a ++ b) = requested a ++ requested b.
Proof.
  induction a as [|e a IH]; cbn [app requested]; [reflexivity|].
  destruct e; cbn [app]; congruence.
Qed.

Lemma race_visits_app (a b : list event) :
  race_visits (a ++ b) = race_visits a ++ race_visits b.
Proof.
  induction a as [|e a IH]; cbn [app race_visits]; [reflexivity|].
  destruct e as [[|] url| | |]; cbn [app]; congruence.
Qed.

(** C4: when the meet's output file is already there as a date comes up,
    the date is over after the two lines that say so: no page is asked for,
    no file is written and no row is added. *)
Theorem existing_file_skips_date (w : world) (single_date : date) (st : state) :
  has_file (output_filename_of single_date) st = true ->
  process_date w single_date st
  = (Ok tt,
     with_trace st [Print (MsgCheckingDate (Calendar.strftime_dmY single_date));
                    Print (MsgFileExists (output_filename_of single_date))])
  /\ requested (trace (snd (process_date w single_date st))) = requested (trace st)
  /\ files (snd (process_date w single_date st)) = files st
  /\ all_meets_data (snd (process_date w single_date st)) = all_meets_data st.
Proof.
  intros H.
  assert (E : process_date w single_date st
              = (Ok tt,
                 with_trace st
                   [Print (MsgCheckingDate (Calendar.strftime_dmY single_date));
                    Print (MsgFileExists (output_filename_of single_date))])).
  { unfold process_date, bind, print, emit, path_exists, with_trace.
    cbv beta iota zeta.
    unfold has_file in *.
    cbn [files all_meets_data meet_data_for_csv race trace].
    rewrite H. cbv beta iota.
    cbn [files all_meets_data meet_data_for_csv race trace].
    rewrite <- app_assoc. reflexivity. }
  rewrite E. cbn [snd with_trace trace files all_meets_data].
  rewrite requested_app, app_nil_r. auto.
Qed.

Lemma existing_file_skips_date_witness :
  process_date plain_world (mkdate 2019 1 1)
               (initial_state [("races_2019-01-01.csv", [])])
  = (Ok tt,
     mk_state [("races_2019-01-01.csv", [])] [] [] (mk_race_vars NA NA NA NA NA)
              [Print (MsgCheckingDate "01/01/2019");
               Print (MsgFileExists "races_2019-01-01.csv")]).
Proof.
  apply (proj1 (existing_file_skips_date plain_world (mkdate 2019 1 1)
                  (initial_state [("races_2019-01-01.csv", [])]) eq_refl)).
Defined.

(** *** Failures *)

Lemma row_body_grows (meet_date race_url : string) (row : element) (st : state) :
  exists more,
    row_body meet_date race_url row st
    = (Ok tt, mk_state (files st) (all_meets_data st) (meet_data_for_csv st ++ more)
                       (race st) (trace st)).
Proof.
  destruct (Nat.lt_ge_cases (List.length (find_elements row TAG_NAME "td")) 12) as [H|H].
  - exists []. rewrite row_body_short by exact H. rewrite app_nil_r.
    destruct st; reflexivity.
  - eexists. rewrite row_body_valid by exact H. reflexivity.
Qed.

Lemma rows_loop_grows (meet_date race_url : string) (rows : list element) (st : state) :
  exists more,
    rows_loop meet_date race_url rows st
    = (Ok tt, mk_state (files st) (all_meets_data st) (meet_data_for_csv st ++ more)
                       (race st) (trace st)).
Proof.
  revert st; induction rows as [|row rows IH]; intros st; cbn [rows_loop].
  - exists []. rewrite app_nil_r. destruct st; reflexivity.
  - unfold bind. destruct (row_body_grows meet_date race_url row st) as (m1 & ->).
    destruct (IH (mk_state (files st) (all_meets_data st) (meet_data_for_csv st ++ m1)
                           (race st) (trace st))) as (m2 & ->).
    exists (m1 ++ m2). cbn [files all_meets_data meet_data_for_csv race trace].
    rewrite app_assoc. reflexivity.
Qed.

Lemma performance_grows (w : world) (meet_date race_url : string) (st : state) :
  exists more new,
    performance w meet_date race_url st
    = (Ok tt, mk_state (files st) (all_meets_data st) (meet_data_for_csv st ++ more)
                       (race st) (trace st ++ new)).
Proof.
  cbv [performance try_ bind driver_find_element driver_find_elements get_state
       lift print emit ret].
  destruct (page_find_elements (current w st) XPATH performance_table_locator)
    as [found|e].
  - destruct found as [|performance_table others]; cbv [first_match].
    + exists [], [Print (MsgPerformanceError race_url NoSuchElementException)].
      rewrite app_nil_r. reflexivity.
    + destruct (rows_loop_grows meet_date race_url
                  (find_elements performance_table XPATH "./tbody/tr") st) as (more & ->).
      exists more. eexists. cbn [files all_meets_data meet_data_for_csv race trace].
      reflexivity.
  - exists [], [Print (MsgPerformanceError race_url e)]. rewrite app_nil_r. reflexivity.
Qed.

(** Projections of states built on the way, and traces put in one piece. *)
Ltac simpl_state :=
  cbv beta iota;
  cbn [files all_meets_data meet_data_for_csv race trace fst snd];
  rewrite <- ?app_assoc; cbn [app].

Lemma process_date_landing_failure (w : world) (single_date : date) (st : state) (e : exn) :
  has_file (output_filename_of single_date) st = false ->
  landing_outcome w single_date st = Raise e ->
  process_date w single_date st
  = (Ok tt,
     with_trace st [Print (MsgCheckingDate (Calendar.strftime_dmY single_date));
                    Get LandingPage (initial_url_of single_date);
                    Print (landing_message single_date e)]).
Proof.
  intros F L. unfold landing_outcome in L.
  cbv [process_date bind print emit path_exists try_ driver_get driver_wait get_state
       lift current with_trace].
  unfold has_file in *.
  cbn [files all_meets_data meet_data_for_csv race trace].
  rewrite F. cbv beta iota.
  cbn [files all_meets_data meet_data_for_csv race trace].
  rewrite !requested_app. cbn [requested]. rewrite app_nil_r.
  cbn [app].
  destruct (load (web w (requested (trace st) ++ [initial_url_of single_date])))
    as [[]|e'].
  - rewrite L. destruct e; simpl_state; reflexivity.
  - injection L as ->. destruct e; simpl_state; reflexivity.
Qed.

(** C3 as worded fails: a driver failure while the race links are looked up
    is caught nowhere; it ends the run, and the next date is never asked
    for. *)
Lemma discovery_failure_ends_run :
  fst (process_date broken_links_world (mkdate 2019 1 1) (initial_state []))
    = Raise lost_session
  /\ fst (script broken_links_world (mkdate 2019 1 1) (mkdate 2019 1 2) (initial_state []))
    = Raise lost_session
  /\ requested
       (trace (snd (script broken_links_world (mkdate 2019 1 1) (mkdate 2019 1 2)
                           (initial_state []))))
     = [initial_url_of (mkdate 2019 1 1)]
  /\ ~ unexpected_failures_caught.
Proof.
  assert (E : fst (process_date broken_links_world (mkdate 2019 1 1) (initial_state []))
              = Raise lost_session) by (vm_compute; reflexivity).
  repeat split; try (vm_compute; reflexivity).
  intros H.
  specialize (H broken_links_world (mkdate 2019 1 1) (initial_state [])
                (fun _ => eq_refl)).
  rewrite E in H. discriminate.
Qed.

(** *** What a step leaves as it was *)

Create HintDb keeps.

Section Keeps.
Context (R : state -> state -> Prop) {HR : PreOrder R}.

Lemma keeps_bind {A B : Type} (m : M A) (k : A -> M B) :
  keeps R m -> (forall a, keeps R (k a)) -> keeps R (bind m k).
Proof.
  intros Hm Hk st. unfold bind. specialize (Hm st).
  destruct (m st) as [[a|e] st']; cbn [snd] in *; [|exact Hm].
  transitivity st'; [exact Hm | apply Hk].
Qed.

Lemma keeps_try {A : Type} (m : M A) : keeps R m -> keeps R (try_ m).
Proof.
  intros Hm st. unfold try_. specialize (Hm st).
  destruct (m st) as [r st']. exact Hm.
Qed.

Lemma keeps_ret {A : Type} (a : A) : keeps R (ret a).
Proof. intros st. reflexivity. Qed.

Lemma keeps_raise {A : Type} (e : exn) : keeps R (@raise A e).
Proof. intros st. reflexivity. Qed.

Lemma keeps_lift {A : Type} (r : outcome A) : keeps R (lift r).
Proof. intros st. reflexivity. Qed.

Lemma keeps_get_state : keeps R get_state.
Proof. intros st. reflexivity. Qed.

Lemma keeps_path_exists (name : string) : keeps R (path_exists name).
Proof. intros st. reflexivity. Qed.
End Keeps.

#[local] Hint Resolve keeps_ret keeps_raise keeps_lift keeps_get_state
  keeps_path_exists : keeps.
#[local] Hint Extern 0 (PreOrder _) => typeclasses eauto : keeps.

(** A computation built from steps that keep [R] keeps [R]. *)
Ltac keeps_steps :=
  intros;
  repeat first
    [ progress auto with keeps
    | apply keeps_try; try solve [typeclasses eauto]
    | apply keeps_bind; try solve [typeclasses eauto]; intros
    | match goal with
      | |- keeps _ (match ?x with _ => _ end) => destruct x
      | |- keeps _ (if ?x then _ else _) => destruct x
      end ].

(** From what the steps of a race keep to what the whole race loop keeps. *)
Section KeepsRace.
Context (R : state -> state -> Prop) {HR : PreOrder R}.
Variable meet_date : string.
Hypothesis R_emit : forall e, e <> Quit -> keeps R (emit e).
Hypothesis R_set_race : forall r, keeps R (set_race r).
Hypothesis R_row :
  forall race_url row, keeps R (row_body meet_date race_url row).

Lemma keeps_print (m : message) : keeps R (print m).
Proof. apply R_emit. discriminate. Qed.

Lemma keeps_sleep (n : nat) : keeps R (sleep n).
Proof. apply R_emit. discriminate. Qed.

Hint Resolve keeps_print keeps_sleep R_set_race R_row : keeps.

Lemma keeps_driver_get (w : world) (site : call_site) (url : string) :
  keeps R (driver_get w site url).
Proof.
  unfold driver_get. apply keeps_bind; [exact _ | apply R_emit; discriminate|]. keeps_steps.
Qed.

Lemma keeps_driver_wait (w : world) (timeout : nat) (by_ : By) (value : string) :
  keeps R (driver_wait w timeout by_ value).
Proof. unfold driver_wait. keeps_steps. Qed.

Lemma keeps_driver_find_elements (w : world) (by_ : By) (value : string) :
  keeps R (driver_find_elements w by_ value).
Proof. unfold driver_find_elements. keeps_steps. Qed.

Lemma keeps_driver_find_element (w : world) (by_ : By) (value : string) :
  keeps R (driver_find_element w by_ value).
Proof.
  unfold driver_find_element.
  apply keeps_bind; [exact _ | apply keeps_driver_find_elements|]. keeps_steps.
Qed.

Hint Resolve keeps_driver_get keeps_driver_wait keeps_driver_find_elements
  keeps_driver_find_element : keeps.

Lemma keeps_race_info (w : world) (race_url : string) : keeps R (race_info w race_url).
Proof.
  unfold race_info, set_race_header_full, set_race_details_text, set_race_specific_name,
    set_race_going, set_race_course.
  keeps_steps.
Qed.

Lemma keeps_rows_loop (race_url : string) (rows : list element) :
  keeps R (rows_loop meet_date race_url rows).
Proof. induction rows; cbn [rows_loop]; keeps_steps. Qed.

Hint Resolve keeps_race_info keeps_rows_loop : keeps.

Lemma keeps_performance (w : world) (race_url : string) :
  keeps R (performance w meet_date race_url).
Proof. unfold performance. cbv zeta. keeps_steps. Qed.

Hint Resolve keeps_performance : keeps.

Lemma keeps_race_body (w : world) (race_url : string) :
  keeps R (race_body w meet_date race_url).
Proof. unfold race_body. keeps_steps. Qed.

Hint Resolve keeps_race_body : keeps.

Lemma keeps_race_loop (w : world) (urls : list string) :
  keeps R (race_loop w meet_date urls).
Proof. induction urls; cbn [race_loop]; keeps_steps. Qed.
End KeepsRace.

#[local] Instance same_data_preorder : PreOrder same_data.
Proof.
  split.
  - intros st. repeat split.
  - intros a b c (F1 & A1 & M1) (F2 & A2 & M2). repeat split; congruence.
Qed.

#[local] Instance same_disk_preorder : PreOrder same_disk.
Proof.
  split.
  - intros st. split; reflexivity.
  - intros a b c (F1 & A1) (F2 & A2). split; congruence.
Qed.

#[local] Instance dated_preorder (meet_date : string) : PreOrder (dated meet_date).
Proof.
  split.
  - intros st H. exact H.
  - intros a b c H1 H2 H. apply H2, H1, H.
Qed.

Lemma same_data_emit (e : event) : e <> Quit -> keeps same_data (emit e).
Proof. intros _ st. repeat split. Qed.

Lemma same_data_set_race (r : race_vars) : keeps same_data (set_race r).
Proof. intros st. repeat split. Qed.

Lemma same_disk_emit (e : event) : e <> Quit -> keeps same_disk (emit e).
Proof. intros _ st. split; reflexivity. Qed.

Lemma same_disk_set_race (r : race_vars) : keeps same_disk (set_race r).
Proof. intros st. split; reflexivity. Qed.

Lemma same_disk_row (meet_date race_url : string) (row : element) :
  keeps same_disk (row_body meet_date race_url row).
Proof.
  intros st. destruct (row_body_grows meet_date race_url row st) as (more & ->).
  split; reflexivity.
Qed.

Lemma dated_emit (meet_date : string) (e : event) :
  e <> Quit -> keeps (dated meet_date) (emit e).
Proof. intros _ st H. exact H. Qed.

Lemma dated_set_race (meet_date : string) (r : race_vars) :
  keeps (dated meet_date) (set_race r).
Proof. intros st H. exact H. Qed.

(** *** The performance table read through a driver that can fail *)

Lemma bind_ok_step {A B : Type} (m : M A) (k : A -> M B) (st st' : state) (a : A) :
  m st = (Ok a, st') -> bind m k st = k a st'.
Proof. intros E. unfold bind. rewrite E. reflexivity. Qed.

Lemma bind_raise_step {A B : Type} (m : M A) (k : A -> M B) (st st' : state) (e : exn) :
  m st = (Raise e, st') -> bind m k st = (Raise e, st').
Proof. intros E. unfold bind. rewrite E. reflexivity. Qed.

Lemma bind_ext {A B : Type} (m : M A) (k1 k2 : A -> M B) (st : state) :
  (forall a s, k1 a s = k2 a s) -> bind m k1 st = bind m k2 st.
Proof.
  intros H. unfold bind. destruct (m st) as [[a|e] s]; [apply H | reflexivity].
Qed.

Lemma bind_ext_first {A B : Type} (m1 m2 : M A) (k : A -> M B) (st : state) :
  m1 st = m2 st -> bind m1 k st = bind m2 k st.
Proof. intros H. unfold bind. rewrite H. reflexivity. Qed.

Lemma extract_live_no_faults (cell_element : element) :
  extract_horse_jockey_trainer_info_live no_faults cell_element
  = extract_horse_jockey_trainer_info cell_element.
Proof.
  unfold extract_horse_jockey_trainer_info_live, extract_horse_jockey_trainer_info,
    element_of, elements_of, find_element, name_of_cell, text_of, attribute_of.
  cbn [no_faults text_fault attribute_fault find_fault].
  destruct (first_match (find_elements cell_element TAG_NAME "a")) as [a|[]];
    reflexivity.
Qed.

Lemma stripped_texts_live_no_faults (divs : list element) :
  stripped_texts_live no_faults divs = Ok (stripped_texts divs).
Proof.
  induction divs as [|rp divs IH]; [reflexivity|].
  cbn [stripped_texts_live stripped_texts]. unfold text_of.
  cbn [no_faults text_fault]. rewrite IH.
  destruct (PyStr.truthy (PyStr.strip (text rp))); reflexivity.
Qed.

Lemma row_body_live_no_faults (meet_date race_url : string) (row : element) (st : state) :
  row_body_live no_faults meet_date race_url row st = row_body meet_date race_url row st.
Proof.
  unfold row_body_live, row_body.
  rewrite (bind_ok_step (lift (elements_of no_faults row TAG_NAME "td")) _ st st
             (find_elements row TAG_NAME "td") eq_refl).
  destruct (List.length (find_elements row TAG_NAME "td") <? 12)%nat eqn:G;
    [reflexivity|].
  apply Nat.ltb_ge in G.
  destruct (at_least_12 _ G)
    as (c0 & c1 & c2 & c3 & c4 & c5 & c6 & c7 & c8 & c9 & c10 & c11 & more & ->).
  unfold cell_info_live, cell_text_live, running_position_live, cell_info, cell_text,
    running_position, index, bind, lift, ret, get_state, set_meet_data, text_of,
    elements_of.
  cbn [nth_error no_faults text_fault find_fault].
  rewrite !extract_live_no_faults, !extract_total, stripped_texts_live_no_faults.
  reflexivity.
Qed.

Lemma rows_loop_live_no_faults (meet_date race_url : string) (rows : list element)
    (st : state) :
  rows_loop_live no_faults meet_date race_url rows st
  = rows_loop meet_date race_url rows st.
Proof.
  revert st; induction rows as [|row rows IH]; intros st; [reflexivity|].
  cbn [rows_loop_live rows_loop]. unfold bind.
  rewrite row_body_live_no_faults.
  destruct (row_body meet_date race_url row st) as [[[]|e] st1]; [apply IH | reflexivity].
Qed.

(** With no failing read, the table is read as in the sections above. *)
Lemma performance_live_no_faults (w : world) (meet_date race_url : string) (st : state) :
  performance_live w no_faults meet_date race_url st = performance w meet_date race_url st.
Proof.
  unfold performance_live, performance. apply bind_ext_first.
  unfold try_, performance_try.
  rewrite (bind_ext (driver_find_element w XPATH performance_table_locator) _
             (fun performance_table =>
                rows_loop meet_date race_url
                  (find_elements performance_table XPATH "./tbody/tr") ;;
                print (MsgScrapedHorses
                         (List.length (find_elements performance_table XPATH
                                                     "./tbody/tr"))))
             st); [reflexivity|].
  intros performance_table s.
  rewrite (bind_ok_step (lift (elements_of no_faults performance_table XPATH "./tbody/tr"))
             _ s s (find_elements performance_table XPATH "./tbody/tr") eq_refl).
  apply bind_ext_first, rows_loop_live_no_faults.
Qed.

#[local] Instance rows_added_preorder : PreOrder rows_added.
Proof.
  split.
  - intros st. exists [], []. rewrite !app_nil_r. destruct st; reflexivity.
  - intros a b c (m1 & n1 & ->) (m2 & n2 & ->). exists (m1 ++ m2), (n1 ++ n2).
    cbn [files all_meets_data meet_data_for_csv race trace].
    rewrite !app_assoc. reflexivity.
Qed.

Lemma rows_added_emit (e : event) : e <> Quit -> keeps rows_added (emit e).
Proof. intros _ st. exists [], [e]. rewrite app_nil_r. reflexivity. Qed.

Lemma rows_added_append (row : horse_data) :
  keeps rows_added (st' <- get_state ;; set_meet_data (meet_data_for_csv st' ++ [row])).
Proof. intros st. exists [row], []. rewrite app_nil_r. reflexivity. Qed.

Lemma rows_added_row_body_live (f : faults) (meet_date race_url : string) (row : element) :
  keeps rows_added (row_body_live f meet_date race_url row).
Proof.
  pose proof rows_added_append as KA.
  unfold row_body_live, cell_text_live, cell_info_live, running_position_live, index.
  cbv zeta. keeps_steps.
Qed.

Lemma rows_added_rows_loop_live (f : faults) (meet_date race_url : string)
    (rows : list element) :
  keeps rows_added (rows_loop_live f meet_date race_url rows).
Proof.
  pose proof (rows_added_row_body_live f meet_date race_url) as KR.
  induction rows; cbn [rows_loop_live]; keeps_steps.
Qed.

Lemma rows_added_performance_try (w : world) (f : faults) (meet_date race_url : string) :
  keeps rows_added (performance_try w f meet_date race_url).
Proof.
  pose proof (rows_added_rows_loop_live f meet_date race_url) as KL.
  pose proof (keeps_print rows_added rows_added_emit) as KP.
  pose proof (keeps_driver_find_element rows_added w) as KF.
  unfold performance_try. keeps_steps.
Qed.

Lemma performance_live_run (w : world) (f : faults) (meet_date race_url : string)
    (st : state) :
  performance_live w f meet_date race_url st
  = match performance_try w f meet_date race_url st with
    | (Ok _, st1) => (Ok tt, st1)
    | (Raise e, st1) => (Ok tt, with_trace st1 [Print (MsgPerformanceError race_url e)])
    end.
Proof.
  unfold performance_live, bind, try_.
  destruct (performance_try w f meet_date race_url st) as [[[]|e] st1]; reflexivity.
Qed.

(** C3, amended: a failure of any kind while a meet's landing page is loaded
    or waited for is caught and logged, leaves no data for the date, and the
    run goes on with the next date; a failure of any kind while a race's
    performance table is looked up or read, a read of a row or of a cell
    included, is caught and logged at that race, the rows collected so far
    are kept, and the pass over the table ends well. *)
Theorem handled_failures_are_local (w : world) :
  (forall single_date rest st e,
      has_file (output_filename_of single_date) st = false ->
      landing_outcome w single_date st = Raise e ->
      dates_loop w (single_date :: rest) st
      = dates_loop w rest
          (with_trace st [Print (MsgCheckingDate (Calendar.strftime_dmY single_date));
                          Get LandingPage (initial_url_of single_date);
                          Print (landing_message single_date e)]))
  /\ (forall f meet_date race_url st e st1,
      performance_try w f meet_date race_url st = (Raise e, st1) ->
      rows_added st st1
      /\ performance_live w f meet_date race_url st
         = (Ok tt, with_trace st1 [Print (MsgPerformanceError race_url e)]))
  /\ (forall f meet_date race_url st,
      fst (performance_live w f meet_date race_url st) = Ok tt
      /\ rows_added st (snd (performance_live w f meet_date race_url st)))
  /\ (forall meet_date race_url st,
      performance w meet_date race_url st
      = performance_live w no_faults meet_date race_url st).
Proof.
  split; [|split; [|split]].
  - intros single_date rest st e F L. cbn [dates_loop]. unfold bind at 1.
    rewrite (process_date_landing_failure w single_date st e F L). reflexivity.
  - intros f meet_date race_url st e st1 T.
    pose proof (rows_added_performance_try w f meet_date race_url st) as K.
    rewrite performance_live_run. rewrite T in *. auto.
  - intros f meet_date race_url st.
    pose proof (rows_added_performance_try w f meet_date race_url st) as K.
    rewrite performance_live_run.
    destruct (performance_try w f meet_date race_url st) as [[[]|e] st1];
      cbn [fst snd] in *; split; try reflexivity; [exact K|].
    transitivity st1; [exact K|]. apply (rows_added_emit (Print _)). discriminate.
  - intros meet_date race_url st. symmetry. apply performance_live_no_faults.
Qed.

Lemma handled_failures_are_local_witness :
  dates_loop offline_world [mkdate 2019 1 1; mkdate 2019 1 2] (initial_state [])
  = dates_loop offline_world [mkdate 2019 1 2]
      (with_trace (initial_state [])
         [Print (MsgCheckingDate "01/01/2019");
          Get LandingPage (initial_url_of (mkdate 2019 1 1));
          Print (MsgLandingError (initial_url_of (mkdate 2019 1 1))
                   (WebDriverException "net::ERR_INTERNET_DISCONNECTED"))])
  /\ performance_live stale_world stale_reads "01/01/2019" (race_url "1")
       (initial_state [])
     = (Ok tt,
        with_trace
          (with_row (initial_state [])
             (row_of "01/01/2019" (race_url "1") (mk_race_vars NA NA NA NA NA)
                     twelve_cells))
          [Print (MsgPerformanceError (race_url "1") stale)]).
Proof.
  split.
  - apply (proj1 (handled_failures_are_local offline_world)
                 (mkdate 2019 1 1) [mkdate 2019 1 2] (initial_state [])
                 (WebDriverException "net::ERR_INTERNET_DISCONNECTED"));
      reflexivity.
  - apply (proj1 (proj2 (handled_failures_are_local stale_world))
                 stale_reads "01/01/2019" (race_url "1") (initial_state []) stale).
    vm_compute. reflexivity.
Defined.

(** *** The order of the race-page requests *)

Create HintDb quiet.

Lemma visits_bind {A B : Type} (m : M A) (k : A -> M B) (v : list string) :
  visits m v -> (forall a, quiet (k a)) -> visits (bind m k) v.
Proof.
  intros Hm Hk st. unfold bind. specialize (Hm st).
  destruct (m st) as [[a|e] st']; cbn [snd] in *; [|exact Hm].
  rewrite (Hk a st'), app_nil_r. exact Hm.
Qed.

Lemma quiet_bind {A B : Type} (m : M A) (k : A -> M B) :
  quiet m -> (forall a, quiet (k a)) -> quiet (bind m k).
Proof. apply visits_bind. Qed.

Lemma visits_try {A : Type} (m : M A) (v : list string) :
  visits m v -> visits (try_ m) v.
Proof.
  intros Hm st. unfold try_. specialize (Hm st).
  destruct (m st) as [r st']. exact Hm.
Qed.

Lemma quiet_try {A : Type} (m : M A) : quiet m -> quiet (try_ m).
Proof. apply visits_try. Qed.

Lemma quiet_ret {A : Type} (a : A) : quiet (ret a).
Proof. intros st. cbn. rewrite app_nil_r. reflexivity. Qed.

Lemma quiet_raise {A : Type} (e : exn) : quiet (@raise A e).
Proof. intros st. cbn. rewrite app_nil_r. reflexivity. Qed.

Lemma quiet_lift {A : Type} (r : outcome A) : quiet (lift r).
Proof. intros st. cbn. rewrite app_nil_r. reflexivity. Qed.

Lemma quiet_get_state : quiet get_state.
Proof. intros st. cbn. rewrite app_nil_r. reflexivity. Qed.

Lemma quiet_set_meet_data (rows : list horse_data) : quiet (set_meet_data rows).
Proof. intros st. cbn. rewrite app_nil_r. reflexivity. Qed.

Lemma quiet_set_all_meets_data (rows : list horse_data) : quiet (set_all_meets_data rows).
Proof. intros st. cbn. rewrite app_nil_r. reflexivity. Qed.

Lemma quiet_set_race (r : race_vars) : quiet (set_race r).
Proof. intros st. cbn. rewrite app_nil_r. reflexivity. Qed.

Lemma quiet_path_exists (name : string) : quiet (path_exists name).
Proof. intros st. cbn. rewrite app_nil_r. reflexivity. Qed.

Lemma quiet_to_csv (w : world) (name : string) (rows : list horse_data) :
  quiet (to_csv w name rows).
Proof.
  intros st. unfold to_csv. destruct (disk w name); cbn; rewrite app_nil_r; reflexivity.
Qed.

Lemma visits_emit (e : event) : visits (emit e) (race_visits [e]).
Proof. intros st. cbn [emit snd trace]. apply race_visits_app. Qed.

Lemma quiet_print (m : message) : quiet (print m).
Proof. apply (visits_emit (Print m)). Qed.

Lemma quiet_sleep (n : nat) : quiet (sleep n).
Proof. apply (visits_emit (Sleep n)). Qed.

Lemma quiet_quit : quiet (emit Quit).
Proof. apply (visits_emit Quit). Qed.

#[local] Hint Resolve quiet_ret quiet_raise quiet_lift quiet_get_state quiet_set_meet_data
  quiet_set_all_meets_data quiet_set_race quiet_path_exists quiet_to_csv quiet_print
  quiet_sleep quiet_quit : quiet.

(** A computation built from quiet steps is quiet. *)
Ltac quiet_steps :=
  repeat first
    [ progress auto with quiet
    | apply quiet_try
    | apply quiet_bind; [|intros]
    | match goal with
      | |- quiet (match ?x with _ => _ end) => destruct x
      | |- quiet (if ?x then _ else _) => destruct x
      end ].

Lemma quiet_driver_wait (w : world) (timeout : nat) (by_ : By) (value : string) :
  quiet (driver_wait w timeout by_ value).
Proof. unfold driver_wait. quiet_steps. Qed.

Lemma quiet_driver_find_elements (w : world) (by_ : By) (value : string) :
  quiet (driver_find_elements w by_ value).
Proof. unfold driver_find_elements. quiet_steps. Qed.

Lemma quiet_driver_find_element (w : world) (by_ : By) (value : string) :
  quiet (driver_find_element w by_ value).
Proof.
  unfold driver_find_element. apply quiet_bind; [apply quiet_driver_find_elements|].
  quiet_steps.
Qed.

Lemma visits_driver_get (w : world) (site : call_site) (url : string) :
  visits (driver_get w site url) (race_visits [Get site url]).
Proof. unfold driver_get. apply visits_bind; [apply visits_emit | intros; quiet_steps]. Qed.

#[local] Hint Resolve quiet_driver_wait quiet_driver_find_elements
  quiet_driver_find_element : quiet.

Lemma quiet_index (cols : list element) (i : nat) : quiet (index cols i).
Proof. unfold index. quiet_steps. Qed.

#[local] Hint Resolve quiet_index : quiet.

Lemma quiet_row_body (meet_date race_url : string) (row : element) :
  quiet (row_body meet_date race_url row).
Proof.
  unfold row_body, cell_text, cell_info, running_position. cbv zeta. quiet_steps.
Qed.

#[local] Hint Resolve quiet_row_body : quiet.

Lemma quiet_rows_loop (meet_date race_url : string) (rows : list element) :
  quiet (rows_loop meet_date race_url rows).
Proof. induction rows; cbn [rows_loop]; quiet_steps. Qed.

#[local] Hint Resolve quiet_rows_loop : quiet.

Lemma quiet_race_info (w : world) (race_url : string) : quiet (race_info w race_url).
Proof.
  unfold race_info, set_race_header_full, set_race_details_text, set_race_specific_name,
    set_race_going, set_race_course.
  quiet_steps.
Qed.

Lemma quiet_performance (w : world) (meet_date race_url : string) :
  quiet (performance w meet_date race_url).
Proof. unfold performance. cbv zeta. quiet_steps. Qed.

#[local] Hint Resolve quiet_race_info quiet_performance : quiet.






Lemma quiet_landing_get (w : world) (url : string) : quiet (driver_get w LandingPage url).
Proof. apply (visits_driver_get w LandingPage url). Qed.

#[local] Hint Resolve quiet_landing_get : quiet.










(** ** The model at work *)

Example split_ex1 :
  PyStr.split RaceNo_eq "a?RaceNo=3&b=RaceNo=12" = ["a?"; "3&b="; "12"].
Proof. reflexivity. Qed.

Example strip_ex1 : PyStr.strip "  Silver Fox
 " = "Silver Fox".
Proof. reflexivity. Qed.

Example key_ex1 : sort_key "x.aspx?RaceDate=2019/01/01&RaceNo=12" = 12%Z.
Proof. reflexivity. Qed.

Example key_ex2 : sort_key "x.aspx?RaceNo=3&Foo=1" = 0%Z.
Proof. reflexivity. Qed.

Example sorted_ex1 :
  sorted sort_key ["u?RaceNo=3"; "u?x"; "u?RaceNo=1"; "u?RaceNo=2"; "u?y"]
  = ["u?x"; "u?y"; "u?RaceNo=1"; "u?RaceNo=2"; "u?RaceNo=3"].
Proof. reflexivity. Qed.

Example daterange_length : List.length (daterange START_DATE END_DATE) = 2192%nat.
Proof. vm_compute. reflexivity. Qed.

Example daterange_leap :
  map Calendar.strftime_Ymd (daterange (mkdate 2020 2 28) (mkdate 2020 3 1))
  = ["2020-02-28"; "2020-02-29"; "2020-03-01"].
Proof. vm_compute. reflexivity. Qed.

Example daterange_last :
  last (daterange START_DATE END_DATE) START_DATE = END_DATE.
Proof. vm_compute. reflexivity. Qed.

Example key_of_landing_url : sort_key landing_2019_01_01 = 0%Z.
Proof. vm_compute. reflexivity. Qed.

(** One day, two race links, three rows a race: the landing URL is asked for
    again as a race page and times out there, the two races come in the order
    of their numbers, and the meet file and the combined file hold six rows. *)
Example one_day_two_races :
  let run := script two_race_world (mkdate 2019 1 1) (mkdate 2019 1 1) (initial_state []) in
  fst run = Ok tt
  /\ requested (trace (snd run))
     = [landing_2019_01_01; landing_2019_01_01; race_url "1"; race_url "2"]
  /\ map (fun f => (fst f, List.length (snd f))) (files (snd run))
     = [("all_races_2019_to_2024.csv", 6%nat); ("races_2019-01-01.csv", 6%nat)]
  /\ map (fun r => (RaceURL r, RaceGoing r, HorseName r, HorseLink r, RunningPosition r))
         (firstn 1 (all_meets_data (snd run)))
     = [(race_url "1", "N/A", "Silver Fox", Some "/horse/123", "2 1")].
Proof. vm_compute. repeat split. Qed.

Example race_day_visits :
  race_visits (trace (snd (process_date two_race_world (mkdate 2019 1 1)
                             (initial_state []))))
  = [landing_2019_01_01; race_url "1"; race_url "2"]
  /\ map race_no_spec [landing_2019_01_01; race_url "1"; race_url "2"] = [0; 1; 2]%Z.
Proof. vm_compute. split; reflexivity. Qed.

(** * Further properties *)

(** ** The dates *)

Lemma all_from_spec (fuel : nat) (z : Z) (f : Z -> bool) :
  all_from fuel z f = true ->
  forall i, (z <= i < z + Z.of_nat fuel)%Z -> f i = true.
Proof.
  revert z; induction fuel as [|fuel IH]; intros z H i Hi; [lia|].
  cbn [all_from] in H. apply andb_prop in H as [Hz H].
  destruct (Z.eq_dec i z) as [->|N]; [exact Hz|].
  apply (IH (z + 1)%Z H). lia.
Qed.

Lemma cycle_comes_back : all_from (Z.to_nat 146097) 0 day_comes_back = true.
Proof. vm_compute. reflexivity. Qed.

Lemma to_days_shift (y m d k : Z) :
  Calendar.to_days (mkdate (y + 400 * k) m d)
  = (Calendar.to_days (mkdate y m d) + 146097 * k)%Z.
Proof.
  assert (S : forall y0, let era := ((y0 + k * 400) / 400)%Z in
              era = (y0 / 400 + k)%Z
              /\ (y0 + k * 400 - era * 400 = y0 - y0 / 400 * 400)%Z).
  { intros y0 era. subst era. rewrite Z.div_add by lia. lia. }
  unfold Calendar.to_days. cbn [year month day].
  destruct (m <=? 2)%Z.
  - replace (y + 400 * k - 1)%Z with (y - 1 + k * 400)%Z by lia.
    destruct (S (y - 1)%Z) as [E1 E2]. rewrite E2, E1. lia.
  - replace (y + 400 * k)%Z with (y + k * 400)%Z by lia.
    destruct (S y) as [E1 E2]. rewrite E2, E1. lia.
Qed.

Lemma of_days_shift (z k : Z) :
  Calendar.of_days (z + 146097 * k)
  = mkdate (year (Calendar.of_days z) + 400 * k)
           (month (Calendar.of_days z)) (day (Calendar.of_days z)).
Proof.
  unfold Calendar.of_days. cbv zeta. cbn [year month day].
  replace (z + 146097 * k + 719468)%Z with (z + 719468 + k * 146097)%Z by lia.
  rewrite Z.div_add by lia.
  replace (z + 719468 + k * 146097 - ((z + 719468) / 146097 + k) * 146097)%Z
    with (z + 719468 - (z + 719468) / 146097 * 146097)%Z by lia.
  set (doe := (z + 719468 - (z + 719468) / 146097 * 146097)%Z).
  set (yoe := ((doe - doe / 1460 + doe / 36524 - doe / 146096) / 365)%Z).
  set (m := if (_ <? 10)%Z then _ else _).
  destruct (m <=? 2)%Z; f_equal; lia.
Qed.

(** Counting the days of a civil date found from a day number gives the day
    number back. *)
Lemma to_days_of_days (z : Z) : Calendar.to_days (Calendar.of_days z) = z.
Proof.
  set (k := ((z + 719468) / 146097)%Z).
  set (doe := ((z + 719468) mod 146097)%Z).
  assert (Hz : z = (doe - 719468 + 146097 * k)%Z).
  { subst doe k. pose proof (Z.div_mod (z + 719468) 146097). lia. }
  assert (Hd : (0 <= doe < 0 + Z.of_nat (Z.to_nat 146097))%Z).
  { subst doe. pose proof (Z.mod_pos_bound (z + 719468) 146097). lia. }
  pose proof (all_from_spec _ _ _ cycle_comes_back doe Hd) as C.
  unfold day_comes_back in C. apply Z.eqb_eq in C.
  rewrite Hz at 1. rewrite of_days_shift.
  rewrite to_days_shift.
  destruct (Calendar.of_days (doe - 719468)) as [y m d] eqn:E.
  cbn [year month day]. rewrite C. lia.
Qed.

(** X1: the dates of a range are one for each day from the first to the
    last, both included, in ascending order; a range whose end lies before
    its start has no date. *)
Theorem daterange_consecutive_days (start_date end_date : date) :
  map Calendar.to_days (daterange start_date end_date)
  = map (fun n => (Calendar.to_days start_date + Z.of_nat n)%Z)
        (seq 0 (Z.to_nat (Calendar.to_days end_date - Calendar.to_days start_date + 1)))
  /\ StronglySorted Z.lt (map Calendar.to_days (daterange start_date end_date))
  /\ ((Calendar.to_days start_date <= Calendar.to_days end_date)%Z ->
      hd_error (map Calendar.to_days (daterange start_date end_date))
        = Some (Calendar.to_days start_date)
      /\ last (map Calendar.to_days (daterange start_date end_date)) 0%Z
        = Calendar.to_days end_date)
  /\ ((Calendar.to_days end_date < Calendar.to_days start_date)%Z ->
      daterange start_date end_date = []).
Proof.
  assert (E : map Calendar.to_days (daterange start_date end_date)
              = map (fun n => (Calendar.to_days start_date + Z.of_nat n)%Z)
                  (seq 0 (Z.to_nat (Calendar.to_days end_date
                                    - Calendar.to_days start_date + 1)))).
  { unfold daterange. rewrite map_map. apply map_ext. intros n.
    unfold Calendar.add_days. apply to_days_of_days. }
  split; [exact E|]. rewrite E. split; [|split].
  - generalize (Z.to_nat (Calendar.to_days end_date - Calendar.to_days start_date + 1)).
    generalize (Calendar.to_days start_date). intros z n.
    generalize 0%nat. induction n as [|n IH]; intros k; cbn [seq map]; constructor.
    + apply IH.
    + rewrite Forall_forall. intros x Hx. apply in_map_iff in Hx as (j & <- & Hj).
      apply in_seq in Hj. lia.
  - intros H.
    destruct (Z.to_nat (Calendar.to_days end_date - Calendar.to_days start_date + 1))
      as [|n] eqn:N; [lia|].
    split.
    + cbn [seq map hd_error]. f_equal. lia.
    + rewrite seq_S, map_app. cbn [map]. rewrite last_last. cbn [Nat.add]. lia.
  - intros H. unfold daterange.
    replace (Z.to_nat _) with 0%nat by lia. reflexivity.
Qed.

Lemma daterange_consecutive_days_witness :
  hd_error (map Calendar.to_days (daterange START_DATE END_DATE))
    = Some (Calendar.to_days START_DATE)
  /\ last (map Calendar.to_days (daterange START_DATE END_DATE)) 0%Z
    = Calendar.to_days END_DATE.
Proof.
  apply (proj1 (proj2 (proj2 (daterange_consecutive_days START_DATE END_DATE)))).
  vm_compute. discriminate.
Defined.

(** ** The file names *)

Lemma digit_inj (a b : Z) : Calendar.digit a = Calendar.digit b -> (a mod 10 = b mod 10)%Z.
Proof.
  unfold Calendar.digit. intros H.
  apply (f_equal nat_of_ascii) in H.
  pose proof (Z.mod_pos_bound a 10). pose proof (Z.mod_pos_bound b 10).
  rewrite !nat_ascii_embedding in H by lia. lia.
Qed.

Lemma dec2_inj (a b : Z) :
  (0 <= a < 100)%Z -> (0 <= b < 100)%Z -> Calendar.dec2 a = Calendar.dec2 b -> a = b.
Proof.
  unfold Calendar.dec2. intros Ha Hb H. injection H as H1 H0.
  apply digit_inj in H1, H0.
  rewrite (Z.mod_small (a / 10)), (Z.mod_small (b / 10)) in H1
    by (split; [apply Z.div_pos | apply Z.div_lt_upper_bound]; lia).
  pose proof (Z.div_mod a 10). pose proof (Z.div_mod b 10). lia.
Qed.

Lemma dec4_inj (a b : Z) :
  (0 <= a < 10000)%Z -> (0 <= b < 10000)%Z -> Calendar.dec4 a = Calendar.dec4 b -> a = b.
Proof.
  unfold Calendar.dec4, Calendar.dec2. intros Ha Hb H. injection H as H3 H2 H1 H0.
  apply digit_inj in H3, H2, H1, H0.
  pose proof (Z.div_mod a 1000). pose proof (Z.div_mod b 1000).
  pose proof (Z.mod_pos_bound a 1000). pose proof (Z.mod_pos_bound b 1000).
  assert (a / 1000 = b / 1000)%Z.
  { rewrite (Z.mod_small (a / 1000)), (Z.mod_small (b / 1000)) in H3
      by (split; [apply Z.div_pos | apply Z.div_lt_upper_bound]; lia).
    exact H3. }
  assert (E : forall x, (0 <= x < 10000)%Z ->
              (x = 1000 * (x / 1000) + 100 * ((x / 100) mod 10)
                   + 10 * ((x / 10) mod 10) + x mod 10)%Z).
  { intros x Hx. Z.div_mod_to_equations. lia. }
  rewrite (E a Ha), (E b Hb). congruence.
Qed.

(** X2: two dates whose fields fit the padded widths have the same meet file
    name only if they are the same date, so the file of one date never makes
    the script skip another. *)
Theorem output_filename_injective (d1 d2 : date) :
  fits_fields d1 -> fits_fields d2 ->
  output_filename_of d1 = output_filename_of d2 -> d1 = d2.
Proof.
  intros (Hy1 & Hm1 & Hd1) (Hy2 & Hm2 & Hd2) H.
  unfold output_filename_of, Calendar.strftime_Ymd in H.
  destruct d1 as [y1 m1 dd1], d2 as [y2 m2 dd2]. cbn [year month day] in *.
  assert (Y : Calendar.dec4 y1 = Calendar.dec4 y2
              /\ Calendar.dec2 m1 = Calendar.dec2 m2
              /\ Calendar.dec2 dd1 = Calendar.dec2 dd2).
  { unfold Calendar.dec4, Calendar.dec2 in *. cbn [append] in H.
    injection H as -> -> -> -> -> -> -> ->. auto. }
  destruct Y as (Y & Mo & D).
  apply dec4_inj in Y; [|assumption..]. apply dec2_inj in Mo; [|assumption..].
  apply dec2_inj in D; [|assumption..]. congruence.
Qed.

Lemma output_filename_injective_witness :
  mkdate 2019 1 1 = mkdate 2019 1 1.
Proof.
  apply (output_filename_injective (mkdate 2019 1 1) (mkdate 2019 1 1)).
  - unfold fits_fields. cbn. lia.
  - unfold fits_fields. cbn. lia.
  - reflexivity.
Defined.

(** ** Days without races, and race pages that do not load *)

(** X3: on a date without its file, whose landing page loads and shows the
    "No race meeting." notice, the script says so, pauses one second and goes
    on: no race page is asked for, nothing is written, no row is added. *)
Theorem no_race_day_is_skipped (w : world) (single_date : date) (st : state)
    (notice : element) (others : list element) :
  has_file (output_filename_of single_date) st = false ->
  landing_outcome w single_date st = Ok tt ->
  page_find_elements (web w (requested (trace st) ++ [initial_url_of single_date]))
                     XPATH no_race_notice = Ok (notice :: others) ->
  process_date w single_date st
  = (Ok tt,
     with_trace st [Print (MsgCheckingDate (Calendar.strftime_dmY single_date));
                    Get LandingPage (initial_url_of single_date);
                    Print MsgNoRaces;
                    Sleep 1]).
Proof.
  intros F L N. unfold landing_outcome in L.
  cbv [process_date bind print sleep emit path_exists try_ driver_get driver_wait
       driver_find_element driver_find_elements get_state lift current with_trace].
  unfold has_file in *.
  cbn [files all_meets_data meet_data_for_csv race trace].
  rewrite F. cbv beta iota.
  cbn [files all_meets_data meet_data_for_csv race trace].
  rewrite !requested_app. cbn [requested]. rewrite app_nil_r.
  cbn [app].
  destruct (load (web w (requested (trace st) ++ [initial_url_of single_date])))
    as [[]|e']; [|discriminate].
  rewrite L. simpl_state. rewrite !requested_app. cbn [requested app]. rewrite N.
  cbv [first_match]. simpl_state. reflexivity.
Qed.

Lemma no_race_day_is_skipped_witness :
  process_date no_race_world (mkdate 2019 1 2) (initial_state [])
  = (Ok tt,
     with_trace (initial_state [])
       [Print (MsgCheckingDate "02/01/2019");
        Get LandingPage (initial_url_of (mkdate 2019 1 2));
        Print MsgNoRaces;
        Sleep 1]).
Proof.
  apply (no_race_day_is_skipped no_race_world (mkdate 2019 1 2) (initial_state [])
           (leaf "No race meeting.") []); reflexivity.
Defined.

Lemma race_try_run (w : world) (race_url : string) (st : state) :
  try_ (driver_get w RacePage race_url ;;
        driver_wait w 20 XPATH performance_table_locator)
       (with_trace st [Print (MsgScrapingRace race_url)])
  = (Ok (race_page_outcome w race_url st),
     with_trace st [Print (MsgScrapingRace race_url); Get RacePage race_url]).
Proof.
  cbv [bind emit try_ driver_get driver_wait get_state lift current with_trace
       race_page_outcome].
  cbn [files all_meets_data meet_data_for_csv race trace].
  rewrite !requested_app. cbn [requested]. rewrite app_nil_r. cbn [app].
  rewrite <- !app_assoc. cbn [app].
  destruct (load (web w (requested (trace st) ++ [race_url]))) as [[]|e]; reflexivity.
Qed.

Lemma race_body_run (w : world) (meet_date race_url : string) (st : state) :
  race_body w meet_date race_url st
  = match race_page_outcome w race_url st with
    | Raise TimeoutException =>
        (Ok tt, with_trace st [Print (MsgScrapingRace race_url); Get RacePage race_url;
                               Print (MsgRaceTimeout race_url)])
    | Raise e =>
        (Raise e, with_trace st [Print (MsgScrapingRace race_url); Get RacePage race_url])
    | Ok _ =>
        (race_info w race_url ;; performance w meet_date race_url ;; sleep 1)
          (with_trace st [Print (MsgScrapingRace race_url); Get RacePage race_url])
    end.
Proof.
  unfold race_body.
  rewrite (bind_ok_step (print _) _ st
             (with_trace st [Print (MsgScrapingRace race_url)]) tt eq_refl).
  rewrite (bind_ok_step _ _ _ _ _ (race_try_run w race_url st)).
  destruct (race_page_outcome w race_url st) as [[]|[]]; try reflexivity.
  cbv [print emit with_trace]. simpl_state. reflexivity.
Qed.

(** X4: a race page that times out is passed over: the script goes on to the
    next race without the one-second pause, and no row, race variable or file
    changes. *)
Theorem race_timeout_skips_race (w : world) (meet_date race_url : string)
    (rest : list string) (st : state) :
  race_page_outcome w race_url st = Raise TimeoutException ->
  race_loop w meet_date (race_url :: rest) st
  = race_loop w meet_date rest
      (with_trace st [Print (MsgScrapingRace race_url); Get RacePage race_url;
                      Print (MsgRaceTimeout race_url)]).
Proof.
  intros T. cbn [race_loop]. unfold bind at 1.
  rewrite race_body_run, T. reflexivity.
Qed.

Lemma race_timeout_skips_race_witness :
  race_loop slow_world "01/01/2019" [race_url "1"] (initial_state [])
  = (Ok tt,
     with_trace (initial_state [])
       [Print (MsgScrapingRace (race_url "1")); Get RacePage (race_url "1");
        Print (MsgRaceTimeout (race_url "1"))]).
Proof.
  rewrite (race_timeout_skips_race slow_world "01/01/2019" (race_url "1") []
             (initial_state []) eq_refl).
  reflexivity.
Defined.

(** X5: a race page whose load or wait fails otherwise than by a timeout
    ends the race loop with that failure: the pages of the races behind it
    are not asked for. *)
Theorem race_load_failure_ends_loop (w : world) (meet_date race_url : string)
    (rest : list string) (st : state) (e : exn) :
  race_page_outcome w race_url st = Raise e -> e <> TimeoutException ->
  race_loop w meet_date (race_url :: rest) st
  = (Raise e,
     with_trace st [Print (MsgScrapingRace race_url); Get RacePage race_url]).
Proof.
  intros T N. cbn [race_loop]. unfold bind at 1.
  rewrite race_body_run, T. destruct e; try reflexivity. congruence.
Qed.

Lemma race_load_failure_ends_loop_witness :
  race_loop offline_world "01/01/2019" [race_url "1"; race_url "2"] (initial_state [])
  = (Raise (WebDriverException "net::ERR_INTERNET_DISCONNECTED"),
     with_trace (initial_state [])
       [Print (MsgScrapingRace (race_url "1")); Get RacePage (race_url "1")]).
Proof.
  apply (race_load_failure_ends_loop offline_world "01/01/2019" (race_url "1")
           [race_url "2"] (initial_state [])
           (WebDriverException "net::ERR_INTERNET_DISCONNECTED")).
  - reflexivity.
  - discriminate.
Defined.

(** ** The rows of a race *)

Lemma row_of_tagged (meet_date race_url : string) (rv : race_vars) (cols : list element) :
  tagged meet_date race_url rv (row_of meet_date race_url rv cols).
Proof. repeat split. Qed.

Lemma row_body_rows (meet_date race_url : string) (row : element) (st : state) :
  exists more,
    row_body meet_date race_url row st
    = (Ok tt, mk_state (files st) (all_meets_data st) (meet_data_for_csv st ++ more)
                       (race st) (trace st))
    /\ Forall (tagged meet_date race_url (race st)) more.
Proof.
  destruct (Nat.lt_ge_cases (List.length (find_elements row TAG_NAME "td")) 12) as [H|H].
  - exists []. rewrite row_body_short by exact H. rewrite app_nil_r.
    split; [destruct st; reflexivity | constructor].
  - eexists. rewrite row_body_valid by exact H. split; [reflexivity|].
    constructor; [apply row_of_tagged | constructor].
Qed.

Lemma rows_loop_rows (meet_date race_url : string) (rows : list element) (st : state) :
  exists more,
    rows_loop meet_date race_url rows st
    = (Ok tt, mk_state (files st) (all_meets_data st) (meet_data_for_csv st ++ more)
                       (race st) (trace st))
    /\ Forall (tagged meet_date race_url (race st)) more.
Proof.
  revert st; induction rows as [|row rows IH]; intros st; cbn [rows_loop].
  - exists []. rewrite app_nil_r. split; [destruct st; reflexivity | constructor].
  - unfold bind. destruct (row_body_rows meet_date race_url row st) as (m1 & -> & T1).
    destruct (IH (mk_state (files st) (all_meets_data st) (meet_data_for_csv st ++ m1)
                           (race st) (trace st))) as (m2 & -> & T2).
    exists (m1 ++ m2). cbn [files all_meets_data meet_data_for_csv race trace] in *.
    rewrite app_assoc. split; [reflexivity | apply Forall_app; auto].
Qed.

Lemma performance_rows (w : world) (meet_date race_url : string) (st : state) :
  exists more new,
    performance w meet_date race_url st
    = (Ok tt, mk_state (files st) (all_meets_data st) (meet_data_for_csv st ++ more)
                       (race st) (trace st ++ new))
    /\ Forall (tagged meet_date race_url (race st)) more.
Proof.
  cbv [performance try_ bind driver_find_element driver_find_elements get_state
       lift print emit ret].
  destruct (page_find_elements (current w st) XPATH performance_table_locator)
    as [found|e].
  - destruct found as [|performance_table others]; cbv [first_match].
    + exists [], [Print (MsgPerformanceError race_url NoSuchElementException)].
      rewrite app_nil_r. split; [reflexivity | constructor].
    + destruct (rows_loop_rows meet_date race_url
                  (find_elements performance_table XPATH "./tbody/tr") st)
        as (more & -> & T).
      exists more. eexists. cbn [files all_meets_data meet_data_for_csv race trace].
      split; [reflexivity | exact T].
  - exists [], [Print (MsgPerformanceError race_url e)]. rewrite app_nil_r.
    split; [reflexivity | constructor].
Qed.

Lemma dated_row (meet_date race_url : string) (row : element) :
  keeps (dated meet_date) (row_body meet_date race_url row).
Proof.
  intros st H. destruct (row_body_rows meet_date race_url row st) as (more & -> & T).
  cbn [snd meet_data_for_csv]. apply Forall_app. split; [exact H|].
  eapply Forall_impl; [|exact T]. intros r (D & _). exact D.
Qed.

(** X6: the rows that the pass over one race page adds to the meet's data
    all carry the meet date, the URL of that page and the five race
    variables as that pass leaves them; the rows that were there stay, in
    front of them. *)
Theorem rows_carry_their_race (w : world) (meet_date race_url : string) (st : state) :
  exists more,
    meet_data_for_csv (snd (race_body w meet_date race_url st))
    = meet_data_for_csv st ++ more
    /\ Forall (tagged meet_date race_url (race (snd (race_body w meet_date race_url st))))
              more.
Proof.
  rewrite race_body_run.
  destruct (race_page_outcome w race_url st) as [[]|e].
  2:{ exists []. destruct e; cbn [snd with_trace meet_data_for_csv];
        rewrite app_nil_r; split; auto. }
  set (s1 := with_trace st [Print (MsgScrapingRace race_url); Get RacePage race_url]).
  assert (M1 : meet_data_for_csv s1 = meet_data_for_csv st) by reflexivity.
  destruct ((race_info w race_url ;; performance w meet_date race_url ;; sleep 1) s1)
    as [r s4] eqn:E.
  cbn [snd]. unfold bind at 1 in E.
  pose proof (keeps_race_info same_data same_data_emit same_data_set_race
                w race_url s1) as (_ & _ & M2).
  destruct (race_info w race_url s1) as [[[]|e] s2]; cbn [snd] in M2.
  2:{ injection E as _ <-. exists []. rewrite app_nil_r, M2. split; auto. }
  unfold bind at 1 in E.
  destruct (performance_rows w meet_date race_url s2) as (more & new & P & T).
  rewrite P in E. cbv [sleep emit] in E. injection E as _ <-.
  exists more. cbn [meet_data_for_csv race].
  rewrite M2, M1. split; [reflexivity | exact T].
Qed.

(** X7: when the race info table is not on the page, the five race variables
    are "N/A", whatever they held before, the script says so and the race
    goes on. *)
Theorem missing_race_info_table (w : world) (race_url : string) (st : state) :
  page_find_elements (current w st) XPATH race_tab = Ok [] ->
  race_info w race_url st
  = (Ok tt,
     mk_state (files st) (all_meets_data st) (meet_data_for_csv st)
              (mk_race_vars "N/A" "N/A" "N/A" "N/A" "N/A")
              (trace st ++ [Print (MsgNoRaceInfo race_url)])).
Proof.
  intros H. unfold current in H.
  unfold race_info, try_, bind, driver_find_element, driver_find_elements, get_state,
    lift, set_race, current.
  cbn. rewrite H. reflexivity.
Qed.

Lemma missing_race_info_table_witness :
  race_info plain_world (race_url "1")
    (mk_state [] [] [] (mk_race_vars "RACE 1" "a" "b" "GOOD" "TURF") [])
  = (Ok tt,
     mk_state [] [] [] (mk_race_vars "N/A" "N/A" "N/A" "N/A" "N/A")
              [Print (MsgNoRaceInfo (race_url "1"))]).
Proof.
  apply (missing_race_info_table plain_world (race_url "1")
           (mk_state [] [] [] (mk_race_vars "RACE 1" "a" "b" "GOOD" "TURF") [])).
  reflexivity.
Defined.

(** ** What a date does to the disk *)

Lemma filter_absent (name : string) (fs : list (string * list horse_data)) :
  existsb (fun f => String.eqb (fst f) name) fs = false ->
  filter (fun f => negb (String.eqb (fst f) name)) fs = fs.
Proof.
  induction fs as [|f fs IH]; cbn [existsb filter]; [reflexivity|].
  intros H. apply orb_false_elim in H as [H1 H2].
  rewrite H1. cbn [negb]. f_equal. apply IH, H2.
Qed.

Lemma effect_of_keeps {A : Type} (meet_date output_filename : string) (m : M A) :
  keeps same_disk m -> effect_of meet_date output_filename m.
Proof. intros K st _. left. apply K. Qed.

Lemma meet_effect_after (meet_date output_filename : string) (st st1 st' : state) :
  same_disk st st1 -> meet_effect meet_date output_filename st1 st' ->
  meet_effect meet_date output_filename st st'.
Proof.
  intros (F & A) [(F' & A')|(rows & N & D & F' & A')].
  - left. split; congruence.
  - right. exists rows. rewrite F', A', F, A. auto.
Qed.

Lemma effect_bind {A B : Type} (meet_date output_filename : string)
    (m : M A) (k : A -> M B) :
  keeps same_disk m -> (forall a, effect_of meet_date output_filename (k a)) ->
  effect_of meet_date output_filename (bind m k).
Proof.
  intros K Hk st H. unfold bind. specialize (K st).
  destruct (m st) as [[a|e] st1]; cbn [snd] in *; [|left; exact K].
  apply (meet_effect_after _ _ st st1); [exact K|].
  apply Hk. unfold has_file in *. destruct K as (-> & _). exact H.
Qed.

Lemma scrape_meet_effect (w : world) (meet_date output_filename initial_url : string) :
  effect_of meet_date output_filename
            (scrape_meet w meet_date output_filename initial_url).
Proof.
  intros st H. unfold scrape_meet.
  set (st1 := mk_state (files st) (all_meets_data st) [] (race st) (trace st)).
  rewrite (bind_ok_step (set_meet_data []) _ st st1 tt eq_refl).
  assert (F : driver_find_elements w XPATH race_links st1
              = (page_find_elements (current w st1) XPATH race_links, st1))
    by reflexivity.
  destruct (page_find_elements (current w st1) XPATH race_links)
    as [race_links_elements|e].
  2:{ rewrite (bind_raise_step _ _ _ _ _ F). left. split; reflexivity. }
  rewrite (bind_ok_step _ _ _ _ _ F). cbv zeta.
  set (urls := sorted_race_urls w initial_url race_links_elements).
  set (st2 := with_trace st1 [Print (MsgFoundRaceUrls (List.length urls) meet_date)]).
  rewrite (bind_ok_step (print _) _ st1 st2 tt eq_refl).
  pose proof (keeps_race_loop same_disk meet_date same_disk_emit same_disk_set_race
                (same_disk_row meet_date) w urls st2) as (F3 & A3).
  pose proof (keeps_race_loop (dated meet_date) meet_date (dated_emit meet_date)
                (dated_set_race meet_date) (dated_row meet_date) w urls st2
                (Forall_nil _)) as D3.
  unfold bind at 1.
  change (files st2) with (files st) in F3.
  change (all_meets_data st2) with (all_meets_data st) in A3.
  destruct (race_loop w meet_date urls st2) as [[[]|e] st3]; cbn [snd] in *;
    [|left; split; assumption].
  cbv [bind get_state]. cbv beta iota.
  destruct (meet_data_for_csv st3) as [|r rows] eqn:M.
  - left. split; assumption.
  - cbv [to_csv]. destruct (disk w output_filename) as [[]|e];
      [|left; split; assumption].
    cbv [print emit set_all_meets_data]. cbn [snd files all_meets_data].
    right. exists (r :: rows). rewrite F3, A3. cbn [files].
    rewrite (filter_absent _ _ H). repeat split; [discriminate | exact D3].
Qed.

Lemma has_file_with_trace (name : string) (st : state) (new : list event) :
  has_file name (with_trace st new) = has_file name st.
Proof. reflexivity. Qed.

Lemma process_date_effect (w : world) (single_date : date) (st : state) :
  meet_effect (Calendar.strftime_dmY single_date) (output_filename_of single_date)
              st (snd (process_date w single_date st)).
Proof.
  unfold process_date. cbv zeta.
  set (st1 := with_trace st [Print (MsgCheckingDate (Calendar.strftime_dmY single_date))]).
  rewrite (bind_ok_step (print _) _ st st1 tt eq_refl).
  rewrite (bind_ok_step (path_exists _) _ st1 st1
             (has_file (output_filename_of single_date) st) eq_refl).
  destruct (has_file (output_filename_of single_date) st) eqn:H.
  - left. split; reflexivity.
  - apply (meet_effect_after _ _ st st1); [split; reflexivity|].
    revert H. change (has_file (output_filename_of single_date) st)
      with (has_file (output_filename_of single_date) st1).
    generalize st1. clear st st1.
    change (effect_of (Calendar.strftime_dmY single_date)
              (output_filename_of single_date)
              (r <- try_ (driver_get w LandingPage (initial_url_of single_date) ;;
                          driver_wait w 10 XPATH landing_marker) ;;
               match r with
               | Raise TimeoutException =>
                   print (MsgLandingTimeout (Calendar.strftime_dmY single_date))
               | Raise e => print (MsgLandingError (initial_url_of single_date) e)
               | Ok _ =>
                   r <- try_ (driver_find_element w XPATH no_race_notice) ;;
                   match r with
                   | Ok _ => print MsgNoRaces ;; sleep 1
                   | Raise NoSuchElementException =>
                       print MsgRaceDayConfirmed ;;
                       scrape_meet w (Calendar.strftime_dmY single_date)
                         (output_filename_of single_date) (initial_url_of single_date)
                   | Raise e => raise e
                   end
               end)).
    pose proof (keeps_print same_disk same_disk_emit) as KP.
    pose proof (keeps_sleep same_disk same_disk_emit) as KS.
    pose proof (keeps_driver_get same_disk same_disk_emit) as KG.
    pose proof (keeps_driver_wait same_disk) as KW.
    pose proof (keeps_driver_find_element same_disk) as KF.
    apply effect_bind; [keeps_steps | intros r].
    destruct r as [[]|e]; [|apply effect_of_keeps; destruct e; keeps_steps].
    apply effect_bind; [keeps_steps | intros r].
    destruct r as [found|e]; [apply effect_of_keeps; keeps_steps|].
    destruct e; try solve [apply effect_of_keeps; keeps_steps].
    apply effect_bind; [keeps_steps | intros _].
    apply scrape_meet_effect.
Qed.

(** ** The whole run *)

Section KeepsRun.
Context (R : state -> state -> Prop) {HR : PreOrder R}.
Hypothesis R_emit : forall e, e <> Quit -> keeps R (emit e).
Hypothesis R_set_race : forall r, keeps R (set_race r).
Hypothesis R_row :
  forall meet_date race_url row, keeps R (row_body meet_date race_url row).
Hypothesis R_set_meet : forall rows, keeps R (set_meet_data rows).
Hypothesis R_set_all : forall rows, keeps R (set_all_meets_data rows).
Hypothesis R_to_csv : forall w name rows, keeps R (to_csv w name rows).

Lemma keeps_scrape_meet (w : world) (meet_date output_filename initial_url : string) :
  keeps R (scrape_meet w meet_date output_filename initial_url).
Proof.
  pose proof (keeps_print R R_emit) as KP.
  pose proof (keeps_driver_find_elements R) as KF.
  pose proof (fun urls => keeps_race_loop R meet_date R_emit R_set_race
                            (R_row meet_date) w urls) as KL.
  unfold scrape_meet. cbv zeta. keeps_steps.
Qed.

Lemma keeps_process_date (w : world) (single_date : date) :
  keeps R (process_date w single_date).
Proof.
  pose proof (keeps_print R R_emit) as KP.
  pose proof (keeps_sleep R R_emit) as KS.
  pose proof (keeps_driver_get R R_emit) as KG.
  pose proof (keeps_driver_wait R) as KW.
  pose proof (keeps_driver_find_element R) as KF.
  pose proof (keeps_scrape_meet w) as KM.
  unfold process_date. cbv zeta. keeps_steps.
Qed.

Lemma keeps_dates_loop (w : world) (dates : list date) :
  keeps R (dates_loop w dates).
Proof.
  pose proof (keeps_process_date w) as KD.
  induction dates; cbn [dates_loop]; keeps_steps.
Qed.
End KeepsRun.

#[local] Instance files_stay_preorder : PreOrder files_stay.
Proof.
  split.
  - intros st name H. exact H.
  - intros a b c H1 H2 name H. apply H2, H1, H.
Qed.

#[local] Instance no_quit_preorder : PreOrder no_quit.
Proof.
  split.
  - intros st. exists []. rewrite app_nil_r. auto.
  - intros a b c (n1 & T1 & Q1) (n2 & T2 & Q2). exists (n1 ++ n2).
    rewrite T2, T1, app_assoc. split; [reflexivity|].
    intros H. apply in_app_or in H. tauto.
Qed.

Lemma files_stay_same (st st' : state) : files st' = files st -> files_stay st st'.
Proof. intros E name H. unfold has_file in *. rewrite E. exact H. Qed.

Lemma files_stay_emit (e : event) : keeps files_stay (emit e).
Proof. intros st. apply files_stay_same. reflexivity. Qed.

Lemma files_stay_set_race (r : race_vars) : keeps files_stay (set_race r).
Proof. intros st. apply files_stay_same. reflexivity. Qed.

Lemma files_stay_set_meet (rows : list horse_data) : keeps files_stay (set_meet_data rows).
Proof. intros st. apply files_stay_same. reflexivity. Qed.

Lemma files_stay_set_all (rows : list horse_data) :
  keeps files_stay (set_all_meets_data rows).
Proof. intros st. apply files_stay_same. reflexivity. Qed.

Lemma files_stay_row (meet_date race_url : string) (row : element) :
  keeps files_stay (row_body meet_date race_url row).
Proof. intros st. apply files_stay_same. apply same_disk_row. Qed.

Lemma files_stay_to_csv (w : world) (name : string) (rows : list horse_data) :
  keeps files_stay (to_csv w name rows).
Proof.
  intros st other H. unfold to_csv. destruct (disk w name); [|exact H].
  unfold has_file in *. cbn [snd files existsb fst].
  destruct (String.eqb name other) eqn:E; [reflexivity|]. cbn [orb].
  apply existsb_exists in H as (f & Hf & Ef). apply existsb_exists.
  exists f. split; [|exact Ef]. apply filter_In. split; [exact Hf|].
  apply String.eqb_eq in Ef. rewrite Ef, String.eqb_sym, E. reflexivity.
Qed.

(** X8: a file that is on disk when the script starts is on disk when it
    ends or breaks off: the script removes no file. *)
Theorem files_are_never_removed (w : world) (start_date end_date : date) (st : state)
    (name : string) :
  has_file name st = true ->
  has_file name (snd (script w start_date end_date st)) = true.
Proof.
  revert name. change (files_stay st (snd (script w start_date end_date st))).
  revert st. change (keeps files_stay (script w start_date end_date)).
  pose proof (keeps_dates_loop files_stay (fun e _ => files_stay_emit e)
                files_stay_set_race files_stay_row files_stay_set_meet
                files_stay_set_all files_stay_to_csv w) as KD.
  pose proof files_stay_emit. pose proof files_stay_set_all.
  pose proof files_stay_to_csv.
  assert (forall m, keeps files_stay (print m)) by (intros; apply files_stay_emit).
  unfold script. keeps_steps.
Qed.

Lemma files_are_never_removed_witness :
  has_file "races_2019-01-01.csv"
    (snd (script two_race_world (mkdate 2019 1 1) (mkdate 2019 1 1)
                 (initial_state [("races_2019-01-01.csv", [])]))) = true.
Proof.
  apply (files_are_never_removed two_race_world (mkdate 2019 1 1) (mkdate 2019 1 1)
           (initial_state [("races_2019-01-01.csv", [])]) "races_2019-01-01.csv").
  reflexivity.
Defined.

Lemma no_quit_same (st st' : state) : trace st' = trace st -> no_quit st st'.
Proof. intros E. exists []. rewrite app_nil_r. auto. Qed.

Lemma no_quit_emit (e : event) : e <> Quit -> keeps no_quit (emit e).
Proof.
  intros N st. exists [e]. split; [reflexivity|].
  intros [H|[]]. congruence.
Qed.

Lemma no_quit_set_race (r : race_vars) : keeps no_quit (set_race r).
Proof. intros st. apply no_quit_same. reflexivity. Qed.

Lemma no_quit_set_meet (rows : list horse_data) : keeps no_quit (set_meet_data rows).
Proof. intros st. apply no_quit_same. reflexivity. Qed.

Lemma no_quit_set_all (rows : list horse_data) : keeps no_quit (set_all_meets_data rows).
Proof. intros st. apply no_quit_same. reflexivity. Qed.

Lemma no_quit_row (meet_date race_url : string) (row : element) :
  keeps no_quit (row_body meet_date race_url row).
Proof.
  intros st. apply no_quit_same.
  destruct (row_body_grows meet_date race_url row st) as (more & ->). reflexivity.
Qed.

Lemma no_quit_to_csv (w : world) (name : string) (rows : list horse_data) :
  keeps no_quit (to_csv w name rows).
Proof.
  intros st. apply no_quit_same. unfold to_csv. destruct (disk w name); reflexivity.
Qed.

Lemma no_quit_dates_loop (w : world) (dates : list date) :
  keeps no_quit (dates_loop w dates).
Proof.
  apply (keeps_dates_loop no_quit no_quit_emit no_quit_set_race no_quit_row
           no_quit_set_meet no_quit_set_all no_quit_to_csv).
Qed.

(** X9: the browser is quit exactly when the loop over the dates ends
    without a failure: a failure that escapes a date ends the script with
    that failure before [driver.quit()] is reached, and after a loop that
    ends well the script does quit the browser. *)
Theorem quit_only_after_all_dates (w : world) (start_date end_date : date) (st : state) :
  ~ In Quit (trace st) ->
  match dates_loop w (daterange start_date end_date) (fresh_run st) with
  | (Raise e, st') =>
      script w start_date end_date st = (Raise e, st') /\ ~ In Quit (trace st')
  | (Ok _, st') =>
      In Quit (trace (snd (script w start_date end_date st)))
  end.
Proof.
  intros N. unfold script.
  rewrite (bind_ok_step (set_all_meets_data []) _ st (fresh_run st) tt eq_refl).
  pose proof (no_quit_dates_loop w (daterange start_date end_date) (fresh_run st))
    as (new & T & Q).
  destruct (dates_loop w (daterange start_date end_date) (fresh_run st))
    as [[[]|e] st'] eqn:E; cbn [snd] in T.
  - rewrite (bind_ok_step _ _ _ _ _ E).
    set (st1 := with_trace st' [Quit]).
    rewrite (bind_ok_step (emit Quit) _ st' st1 tt eq_refl).
    set (st2 := with_trace st1 [Print MsgCompleted]).
    rewrite (bind_ok_step (print _) _ st1 st2 tt eq_refl).
    assert (I : forall s, (exists more, trace s = trace st2 ++ more) -> In Quit (trace s)).
    { intros s (more & ->). subst st2 st1. cbn [with_trace trace].
      apply in_or_app. left. apply in_or_app. left. apply in_or_app. right.
      left. reflexivity. }
    apply I. cbv [bind get_state]. cbv beta iota.
    destruct (all_meets_data st2) as [|r rows].
    + exists []. rewrite app_nil_r. reflexivity.
    + cbv [print emit to_csv]. destruct (disk w combined_filename) as [[]|e];
        cbn [snd trace]; eexists; rewrite <- ?app_assoc; reflexivity.
  - rewrite (bind_raise_step _ _ _ _ _ E).
    split; [reflexivity|]. rewrite T. cbn [fresh_run trace].
    intros H. apply in_app_or in H. tauto.
Qed.

Lemma quit_only_after_all_dates_witness :
  fst (script broken_links_world (mkdate 2019 1 1) (mkdate 2019 1 2) (initial_state []))
    = Raise lost_session
  /\ ~ In Quit (trace (snd (script broken_links_world (mkdate 2019 1 1) (mkdate 2019 1 2)
                                   (initial_state [])))).
Proof.
  pose proof (quit_only_after_all_dates broken_links_world (mkdate 2019 1 1)
                (mkdate 2019 1 2) (initial_state []) (fun H => H)) as Q.
  destruct (dates_loop broken_links_world (daterange (mkdate 2019 1 1) (mkdate 2019 1 2))
              (fresh_run (initial_state []))) as [[[]|e] st'] eqn:E.
  - vm_compute in E. discriminate.
  - destruct Q as [-> Q]. split; [|exact Q].
    vm_compute in E. injection E as <- _. reflexivity.
Defined.

(** *** A run over dates that all have their file *)

Lemma process_date_skip (w : world) (single_date : date) (st : state) :
  has_file (output_filename_of single_date) st = true ->
  process_date w single_date st = (Ok tt, with_trace st (skip_lines single_date)).
Proof.
  intros H.
  unfold process_date, bind, print, emit, path_exists, with_trace, skip_lines.
  cbv beta iota zeta. unfold has_file in *.
  cbn [files all_meets_data meet_data_for_csv race trace].
  rewrite H. cbv beta iota.
  cbn [files all_meets_data meet_data_for_csv race trace].
  rewrite <- app_assoc. reflexivity.
Qed.

Lemma dates_loop_skip (w : world) (dates : list date) (st : state) :
  (forall d, In d dates -> has_file (output_filename_of d) st = true) ->
  dates_loop w dates st = (Ok tt, with_trace st (flat_map skip_lines dates)).
Proof.
  revert st; induction dates as [|d dates IH]; intros st H; cbn [dates_loop flat_map].
  - unfold with_trace. rewrite app_nil_r. destruct st; reflexivity.
  - rewrite (bind_ok_step _ _ _ _ _ (process_date_skip w d st (H d (or_introl eq_refl)))).
    rewrite IH.
    + unfold with_trace. cbn [files all_meets_data meet_data_for_csv race trace].
      rewrite <- app_assoc. reflexivity.
    + intros d' Hd'. rewrite has_file_with_trace. apply H. right. exact Hd'.
Qed.

(** X10: when every date of the range already has its meet file, the script
    ends well after two lines for each date, the quit and the closing line:
    it asks for no page, writes no file (the combined file is not written
    either) and leaves the rows of the run empty. *)
Theorem rerun_over_complete_range (w : world) (start_date end_date : date) (st : state) :
  (forall d, In d (daterange start_date end_date) ->
             has_file (output_filename_of d) st = true) ->
  script w start_date end_date st
  = (Ok tt,
     mk_state (files st) [] (meet_data_for_csv st) (race st)
              (trace st ++ flat_map skip_lines (daterange start_date end_date)
                        ++ [Quit; Print MsgCompleted])).
Proof.
  intros H. unfold script.
  rewrite (bind_ok_step (set_all_meets_data []) _ st (fresh_run st) tt eq_refl).
  rewrite (bind_ok_step _ _ _ _ _
             (dates_loop_skip w (daterange start_date end_date) (fresh_run st) H)).
  cbv [bind emit print get_state with_trace fresh_run ret].
  cbn [files all_meets_data meet_data_for_csv race trace].
  rewrite <- !app_assoc. reflexivity.
Qed.

Lemma rerun_over_complete_range_witness :
  script two_race_world (mkdate 2019 1 1) (mkdate 2019 1 2) (initial_state two_files)
  = (Ok tt,
     mk_state two_files [] [] (mk_race_vars NA NA NA NA NA)
              [Print (MsgCheckingDate "01/01/2019");
               Print (MsgFileExists "races_2019-01-01.csv");
               Print (MsgCheckingDate "02/01/2019");
               Print (MsgFileExists "races_2019-01-02.csv");
               Quit; Print MsgCompleted]).
Proof.
  apply (rerun_over_complete_range two_race_world (mkdate 2019 1 1) (mkdate 2019 1 2)
           (initial_state two_files)).
  intros d Hd. vm_compute in Hd.
  destruct Hd as [<-|[<-|[]]]; reflexivity.
Defined.

(** ** The set of race URLs *)

Lemma existsb_eqb_In (x : string) (s : list string) :
  existsb (String.eqb x) s = true <-> In x s.
Proof.
  rewrite existsb_exists. split.
  - intros (y & Hy & E). apply String.eqb_eq in E. subst. exact Hy.
  - intros H. exists x. split; [exact H | apply String.eqb_refl].
Qed.

Lemma set_add_In (x y : string) (s : list string) :
  In x (set_add y s) <-> x = y \/ In x s.
Proof.
  unfold set_add. destruct (existsb (String.eqb y) s) eqn:E.
  - apply existsb_eqb_In in E. split; [auto | intros [->|H]; assumption].
  - rewrite in_app_iff. cbn [In]. split; [intros [H|[H|[]]]; auto | intros [H|H]; auto].
Qed.

Lemma set_add_NoDup (y : string) (s : list string) : NoDup s -> NoDup (set_add y s).
Proof.
  intros N. unfold set_add. destruct (existsb (String.eqb y) s) eqn:E; [exact N|].
  apply NoDup_app; [exact N | repeat constructor; intros [] |].
  intros x Hx [<-|[]]. apply existsb_eqb_In in Hx. congruence.
Qed.

Lemma add_links_NoDup (links : list element) (s : list string) :
  NoDup s -> NoDup (add_links links s).
Proof.
  revert s; induction links as [|elem links IH]; intros s N; cbn [add_links]; [exact N|].
  destruct (get_attribute elem "href") as [href|]; [|auto].
  destruct (_ && _); auto using set_add_NoDup.
Qed.

Lemma add_links_In (u : string) (links : list element) (s : list string) :
  In u (add_links links s)
  <-> In u s
      \/ exists elem, In elem links /\ get_attribute elem "href" = Some u
                      /\ is_race_link u = true.
Proof.
  revert s; induction links as [|elem links IH]; intros s; cbn [add_links].
  - split; [auto | intros [H|(elem & [] & _)]; exact H].
  - destruct (get_attribute elem "href") as [href|] eqn:G.
    + fold (is_race_link href). destruct (is_race_link href) eqn:L; rewrite IH.
      * rewrite set_add_In. split.
        -- intros [[->|H]|(e & He & Ge & Le)]; auto.
           ++ right. exists elem. cbn [In]. auto.
           ++ right. exists e. cbn [In]. auto.
        -- intros [H|(e & [<-|He] & Ge & Le)]; auto.
           ++ left. left. congruence.
           ++ right. exists e. auto.
      * split.
        -- intros [H|(e & He & Ge & Le)]; auto. right. exists e. cbn [In]. auto.
        -- intros [H|(e & [<-|He] & Ge & Le)]; auto; [congruence|].
           right. exists e. auto.
    + rewrite IH. split.
      * intros [H|(e & He & Ge & Le)]; auto. right. exists e. cbn [In]. auto.
      * intros [H|(e & [<-|He] & Ge & Le)]; auto; [congruence|].
        right. exists e. auto.
Qed.

(** X11: the race URLs to visit hold no URL twice, and a URL is among them
    exactly when it is the landing page's own or the target of a link found
    on it that is not empty, contains "LocalResults.aspx" and does not
    contain "ResultsAll.aspx". *)
Theorem race_urls_are_the_distinct_race_links (w : world) (initial_url : string)
    (race_links_elements : list element) :
  NoDup (sorted_race_urls w initial_url race_links_elements)
  /\ forall u,
       In u (sorted_race_urls w initial_url race_links_elements)
       <-> u = initial_url
           \/ exists elem, In elem race_links_elements
                           /\ get_attribute elem "href" = Some u
                           /\ is_race_link u = true.
Proof.
  pose proof (sorted_race_urls_perm w initial_url race_links_elements) as P.
  split.
  - eapply Permutation_NoDup; [symmetry; exact P|].
    apply add_links_NoDup. repeat constructor. intros [].
  - intros u. split.
    + intros H. apply (Permutation_in _ P) in H.
      apply add_links_In in H as [[<-|[]]|H]; auto.
    + intros H. apply (Permutation_in _ (Permutation_sym P)).
      apply add_links_In. destruct H as [->|H]; [left; left; reflexivity | right; exact H].
Qed.

(** ** The sort key again *)

Lemma after_last_digits (t : string) :
  PyStr.all_digits t = true -> after_last RaceNo_eq t = None.
Proof.
  induction t as [|c t IH]; intros D; [reflexivity|].
  cbn [PyStr.all_digits] in D. apply andb_prop in D as [Dc Dt].
  cbn [after_last]. rewrite (IH Dt).
  unfold RaceNo_eq. cbn [prefix].
  destruct (ascii_dec "R" c) as [<-|]; [discriminate Dc | reflexivity].
Qed.

Lemma after_last_behind (pre x t : string) :
  after_last RaceNo_eq x = Some t -> after_last RaceNo_eq (pre ++ x)%string = Some t.
Proof.
  intros H. induction pre as [|c pre IH]; [exact H|].
  cbn [append after_last]. rewrite IH. reflexivity.
Qed.

(** X12: the sort key is never negative, and a URL that ends in "RaceNo="
    and a non-empty run of decimal digits has the integer value of those
    digits as its key, whatever stands in front (another "RaceNo=" too). *)
Theorem sort_key_of_trailing_digits :
  (forall url, (0 <= sort_key url)%Z)
  /\ (forall pre digits,
        PyStr.isdigit digits = true ->
        sort_key (pre ++ "RaceNo=" ++ digits)%string = PyStr.int digits).
Proof.
  split; [apply sort_key_nonneg|].
  intros pre digits D. unfold sort_key.
  rewrite contains_after_last, last_piece_split.
  assert (A : PyStr.all_digits digits = true).
  { rewrite isdigit_all_digits in D. apply andb_prop in D. tauto. }
  rewrite (after_last_behind pre _ digits).
  - cbn [andb]. rewrite D. reflexivity.
  - change "RaceNo=" with RaceNo_eq. rewrite after_last_RaceNo.
    rewrite (after_last_digits _ A). reflexivity.
Qed.

Lemma sort_key_of_trailing_digits_witness :
  sort_key "x?RaceNo=1&y=RaceNo=12" = 12%Z.
Proof.
  apply (proj2 sort_key_of_trailing_digits "x?RaceNo=1&y=" "12"). reflexivity.
Defined.

(** ** The files of a run *)

(** X13: a date leaves the disk and the rows of the run as they are, or
    adds exactly its own file, which is not empty and whose rows all carry
    the date, and appends those rows to the rows of the run; so after the
    loop over the dates, however it ends, the files written are files of
    dates of the loop, written in the order of the dates, each in front of
    the files that were there, and the rows of the run have grown by exactly
    their rows, in that order. *)
Theorem run_accounts_for_its_files (w : world) :
  (forall single_date st,
      meet_effect (Calendar.strftime_dmY single_date) (output_filename_of single_date)
                  st (snd (process_date w single_date st)))
  /\ (forall dates st,
      exists written,
        files (snd (dates_loop w dates st)) = rev (map file_of written) ++ files st
        /\ all_meets_data (snd (dates_loop w dates st))
           = all_meets_data st ++ List.concat (map snd written)
        /\ Forall rows_of_date written
        /\ subsequence (map fst written) dates).
Proof.
  split; [apply process_date_effect|].
  induction dates as [|d dates IH]; intros st; cbn [dates_loop].
  - exists []. cbn. rewrite app_nil_r. repeat split; constructor.
  - unfold bind. pose proof (process_date_effect w d st) as E.
    destruct (process_date w d st) as [[[]|e] st1]; cbn [snd] in *.
    + destruct (IH st1) as (written & F & A & R & I).
      destruct E as [(F1 & A1)|(rows & N & D & F1 & A1)].
      * exists written. rewrite F, A, F1, A1. repeat split; [exact R|].
        apply subsequence_skip. exact I.
      * exists ((d, rows) :: written). rewrite F, A, F1, A1.
        cbn [map rev List.concat fst snd file_of]. rewrite <- !app_assoc. cbn [app].
        repeat split.
        -- constructor; [split; assumption | exact R].
        -- apply subsequence_take. exact I.
    + destruct E as [(F1 & A1)|(rows & N & D & F1 & A1)].
      * exists []. cbn. rewrite app_nil_r. repeat split; [assumption.. | constructor |].
        apply subsequence_nil.
      * exists [(d, rows)]. cbn [map rev List.concat fst snd file_of app].
        rewrite app_nil_r. repeat split; [assumption.. | | ].
        -- constructor; [split; assumption | constructor].
        -- apply subsequence_take. apply subsequence_nil.
Qed.

Example two_dates_written_in_order :
  map fst (files (snd (dates_loop two_race_world [mkdate 2019 1 1; mkdate 2019 1 2]
                                  (initial_state []))))
  = ["races_2019-01-02.csv"; "races_2019-01-01.csv"].
Proof. vm_compute. reflexivity. Qed.

(** ** Stripped texts *)

Lemma lstrip_head (s : string) (c : ascii) (t : string) :
  PyStr.lstrip s = String c t -> PyStr.is_space c = false.
Proof.
  induction s as [|d s IH]; cbn [PyStr.lstrip]; [discriminate|].
  destruct (PyStr.is_space d) eqn:E; [exact IH|].
  intros [= <- _]. exact E.
Qed.

Lemma rstrip_head (c : ascii) (t : string) :
  PyStr.is_space c = false -> exists t', PyStr.rstrip (String c t) = String c t'.
Proof.
  intros E. cbn [PyStr.rstrip]. destruct (PyStr.rstrip t); rewrite ?E; eauto.
Qed.

Lemma rstrip_cons (c : ascii) (s : string) :
  PyStr.rstrip (String c s)
  = match PyStr.rstrip s with
    | EmptyString => if PyStr.is_space c then EmptyString else String c EmptyString
    | String d r => String c (String d r)
    end.
Proof. reflexivity. Qed.

Lemma rstrip_idempotent (s : string) : PyStr.rstrip (PyStr.rstrip s) = PyStr.rstrip s.
Proof.
  induction s as [|c s IH]; [reflexivity|].
  rewrite rstrip_cons. destruct (PyStr.rstrip s) as [|d r] eqn:R.
  - destruct (PyStr.is_space c) eqn:E; [reflexivity|].
    rewrite rstrip_cons. cbn [PyStr.rstrip]. rewrite E. reflexivity.
  - rewrite rstrip_cons, IH. reflexivity.
Qed.

Lemma strip_idempotent (s : string) : PyStr.strip (PyStr.strip s) = PyStr.strip s.
Proof.
  unfold PyStr.strip. destruct (PyStr.lstrip s) as [|c t] eqn:L; [reflexivity|].
  destruct (rstrip_head c t (lstrip_head _ _ _ L)) as (t' & R).
  rewrite R. cbn [PyStr.lstrip]. rewrite (lstrip_head _ _ _ L).
  rewrite <- R. apply rstrip_idempotent.
Qed.

(** X15: stripping is idempotent, so every text the helpers hand out is
    already stripped: the text found by [get_safe_text] (the default apart)
    and the name found by [extract_horse_jockey_trainer_info] are not
    changed by stripping them again. *)
Theorem helper_texts_are_stripped :
  (forall s, PyStr.strip (PyStr.strip s) = PyStr.strip s)
  /\ (forall element by_ value default s,
        get_safe_text element by_ value default = Ok s ->
        s = default \/ PyStr.strip s = s)
  /\ (forall cell_element name link,
        extract_horse_jockey_trainer_info cell_element = Ok (name, link) ->
        PyStr.strip name = name).
Proof.
  split; [apply strip_idempotent|]. split.
  - intros element by_ value default s. rewrite get_safe_text_total.
    destruct (find_elements element by_ value); intros [= <-];
      [left; reflexivity | right; apply strip_idempotent].
  - intros cell_element name link. rewrite extract_total. unfold name_link.
    destruct (find_elements cell_element TAG_NAME "a"); intros [= <- _];
      apply strip_idempotent.
Qed.

Lemma helper_texts_are_stripped_witness :
  PyStr.strip "Silver Fox" = "Silver Fox".
Proof.
  apply (proj2 (proj2 helper_texts_are_stripped) silver_fox_linked
               "Silver Fox" (Some "/horse/123")).
  reflexivity.
Defined.
